(** * Windows Automation Assistant: command dispatch and browser-session lifecycle

    A shallow embedding of [src/windows_assistant.py].  The Python module is a
    sequence of statements that log, call into external automation
    capabilities (browser driver, GUI automation, HTTP client, OS process and
    file primitives), mutate one global ([BROWSER_SESSION]) and raise or catch
    exceptions.  The embedding keeps that shape:

    - [PyStr]: the [str] methods the dispatcher uses ([strip], [lower],
      [startswith], [partition], [split]);
    - [Py]: a small statement monad with state, exceptions, [return],
      [break] and [continue], together with the record of answers the
      external world gives;
    - [Assistant]: the handlers, [execute_command] and [main], transcribed
      statement by statement;
    - the theorems about them. *)

From Stdlib Require Import String Ascii List Arith ZArith QArith_base DecimalString Lia Bool.
From ExtLib Require Import Structures.Monad.
Import ListNotations.
Import MonadNotation.
Close Scope Q_scope.

Local Open Scope string_scope.

(* ===================================================================== *)
(** * Python strings *)
(* ===================================================================== *)

(** A [str] is modelled by the string of its code points, for text whose
    code points are below 256 (the Latin-1 range, of which ASCII is the lower
    half).  [isspace], [isupper] and [lower] follow Python's Unicode tables on
    that range. *)
Module PyStr.

(** [str.isspace] on one character: TAB..CR, FS..US, SPACE, NEL, NBSP. *)
Definition isspace (c : ascii) : bool :=
  let n := nat_of_ascii c in
  (((9 <=? n) && (n <=? 13)) || ((28 <=? n) && (n <=? 32))
   || (n =? 133) || (n =? 160))%nat.

(** Characters that [str.lower] changes: A..Z and the Latin-1 capitals
    U+00C0..U+00DE without the multiplication sign U+00D7. *)
Definition isupper (c : ascii) : bool :=
  let n := nat_of_ascii c in
  (((65 <=? n) && (n <=? 90))
   || ((192 <=? n) && (n <=? 222) && negb (n =? 215)))%nat.

Definition lower_char (c : ascii) : ascii :=
  if isupper c then ascii_of_nat (nat_of_ascii c + 32) else c.

(** [s.lower()] *)
Fixpoint lower (s : string) : string :=
  match s with
  | EmptyString => EmptyString
  | String c r => String (lower_char c) (lower r)
  end.

(** [s.lstrip()] *)
Fixpoint lstrip (s : string) : string :=
  match s with
  | EmptyString => EmptyString
  | String c r => if isspace c then lstrip r else s
  end.

(** [s.rstrip()]: a character is dropped when it is white space and
    everything after it has been dropped. *)
Fixpoint rstrip (s : string) : string :=
  match s with
  | EmptyString => EmptyString
  | String c r =>
      match rstrip r with
      | EmptyString => if isspace c then EmptyString else String c EmptyString
      | r' => String c r'
      end
  end.

(** [s.strip()] *)
Definition strip (s : string) : string := rstrip (lstrip s).

(** [s.startswith(p)] *)
Fixpoint startswith (p s : string) : bool :=
  match p, s with
  | EmptyString, _ => true
  | String a p', String b s' => Ascii.eqb a b && startswith p' s'
  | String _ _, EmptyString => false
  end.

(** [s[n:]] *)
Fixpoint drop (n : nat) (s : string) : string :=
  match n, s with
  | O, _ => s
  | S n', String _ r => drop n' r
  | S _, EmptyString => EmptyString
  end.

(** The text before and after the first occurrence of [sep] in [s]. *)
Fixpoint split_first (sep s : string) : option (string * string) :=
  if startswith sep s then Some (EmptyString, drop (String.length sep) s)
  else match s with
       | EmptyString => None
       | String c r =>
           match split_first sep r with
           | Some (b, a) => Some (String c b, a)
           | None => None
           end
       end.

(** [s.partition(sep)] *)
Definition partition (sep s : string) : string * string * string :=
  match split_first sep s with
  | Some (b, a) => (b, sep, a)
  | None => (s, EmptyString, EmptyString)
  end.

(** [s.split(sep, maxsplit)]: at most [maxsplit] cuts, left to right. *)
Fixpoint split_max (sep : string) (maxsplit : nat) (s : string) : list string :=
  match maxsplit with
  | O => [s]
  | S m =>
      match split_first sep s with
      | Some (b, a) => b :: split_max sep m a
      | None => [s]
      end
  end.

(** [s.split(sep)]: a non-empty separator is cut at most [len(s)] times. *)
Definition split (sep s : string) : list string :=
  split_max sep (String.length s) s.

(** [s.split()]: the maximal runs of characters that are not white space.
    [cur] is the run being read, if any. *)
Fixpoint words_from (cur : option string) (s : string) : list string :=
  match s with
  | EmptyString => match cur with Some w => [w] | None => [] end
  | String c r =>
      if isspace c
      then match cur with
           | Some w => w :: words_from None r
           | None => words_from None r
           end
      else words_from
             (Some (match cur with Some w => w ++ String c EmptyString
                              | None => String c EmptyString end)) r
  end.

Definition split_ws (s : string) : list string := words_from None s.

(** Python truthiness of a [str]. *)
Definition nonempty (s : string) : bool :=
  match s with EmptyString => false | _ => true end.

(** [a or b] on strings. *)
Definition or_else (a b : string) : string := if nonempty a then a else b.

(** Every character of [s] satisfies [p]. *)
Fixpoint all_chars (p : ascii -> bool) (s : string) : bool :=
  match s with
  | EmptyString => true
  | String c r => p c && all_chars p r
  end.

(** [s] holds no character that [lower] would change. *)
Definition lowercase (s : string) : bool :=
  all_chars (fun c => negb (isupper c)) s.

End PyStr.

Module PyStrFacts.
Import PyStr.

Example strip_ex : strip "  Open Browser  X " = "Open Browser  X".
Proof. reflexivity. Qed.

Example lower_ex : lower "Fill Form::#ID::Bob" = "fill form::#id::bob".
Proof. reflexivity. Qed.

Example split_ex1 : split "::" "open app::a::b::c" = ["open app"; "a"; "b"; "c"].
Proof. reflexivity. Qed.

Example split_ex2 : split "::" "a:::b" = ["a"; ":b"].
Proof. reflexivity. Qed.

Example split_ex3 : split "::" "" = [""].
Proof. reflexivity. Qed.

Example split_max_ex : split_max "::" 2 "send http::u::{1::2}" = ["send http"; "u"; "{1::2}"].
Proof. reflexivity. Qed.

Example partition_ex : partition "open browser" "open browser x.org" = ("", "open browser", " x.org").
Proof. reflexivity. Qed.

Example split_ws_ex : split_ws "  -a   b c " = ["-a"; "b"; "c"].
Proof. reflexivity. Qed.

Lemma isupper_lower_char c : isupper (lower_char c) = false.
Proof.
  destruct c as [[] [] [] [] [] [] [] []]; vm_compute; reflexivity.
Qed.

Lemma lower_char_fixed c : isupper c = false -> lower_char c = c.
Proof. unfold lower_char; intros ->; reflexivity. Qed.


Lemma lowercase_fixed s : lowercase s = true <-> lower s = s.
Proof.
  unfold lowercase; induction s as [|c r IH]; simpl.
  - tauto.
  - rewrite andb_true_iff, negb_true_iff, IH. split.
    + intros [Hc Hr]. rewrite Hr, (lower_char_fixed _ Hc). reflexivity.
    + intros H. injection H as Hc Hr. split; [|exact Hr].
      rewrite <- Hc. apply isupper_lower_char.
Qed.

Section AllChars.
Variable p : ascii -> bool.


Lemma all_chars_app a b :
  all_chars p (a ++ b) = all_chars p a && all_chars p b.
Proof.
  induction a as [|c r IH]; simpl; [reflexivity|].
  rewrite IH, andb_assoc; reflexivity.
Qed.








End AllChars.

End PyStrFacts.

(* ===================================================================== *)
(** * Statements, exceptions and the external world *)
(* ===================================================================== *)

(** Logging and the [str] methods cannot fail.  Every call into an external
    capability can, with an instance of [Exception] that the world chooses.
    The interruption signal is taken to arrive while the program waits at a
    prompt (the microphone or [input]). *)
Module Py.

(** Instances of [Exception].  [json.JSONDecodeError] and the unpacking
    error are [ValueError]s; the message is what [str(exc)] prints. *)
Inductive Exc : Type :=
| ValueError (msg : string)
| Error (msg : string).

(** What a [raise] can carry: an [Exception], or one of the two
    [BaseException]s that [except Exception] lets through. *)
Inductive exn : Type :=
| Exception (e : Exc)
| KeyboardInterrupt
| SystemExit (code : Z).

Definition str_exc (e : Exc) : string :=
  match e with ValueError m => m | Error m => m end.

(** [str(n)] for an [int]. *)
Definition str_int (z : Z) : string := NilZero.string_of_int (Z.to_int z).

(** The answer of an external capability to one call. *)
Inductive Answer (A : Type) : Type :=
| Ok (a : A)
| Fails (e : Exc).
Arguments Ok {A} a.
Arguments Fails {A} e.

(** The answer at an input prompt, where the interruption signal is
    delivered. *)
Inductive Prompt (A : Type) : Type :=
| Entered (a : A)
| Failed (e : Exc)
| Interrupted.
Arguments Entered {A} a.
Arguments Failed {A} e.
Arguments Interrupted {A}.

(** A browser session object, named by the index of the call that made it. *)
Definition Session : Type := nat.
Definition Element : Type := nat.
Definition Point : Type := (Z * Z)%type.

(** What [json.loads] returns. *)
#[local] Unset Elimination Schemes.
Inductive Json : Type :=
| JNull
| JBool (b : bool)
| JInt (z : Z)
| JFloat (literal : string)
| JStr (s : string)
| JList (items : list Json)
| JDict (items : list (string * Json)).
#[local] Set Elimination Schemes.

(** Calls into external capabilities. *)
Inductive Call : Type :=
| ChromeOptions
| add_argument (arg : string)
| webdriver_Chrome
| session_get (s : Session) (url : string)
| session_quit (s : Session)
| find_element (s : Session) (selector : string)
| element_clear (el : Element)
| element_send_keys (el : Element) (value : string)
| os_getenv (name default : string)
| Path_exists (path : string)
| os_startfile (path : string)
| Path_home
| Path_iterdir (path : string)
| Path_mkdir (path : string)
| time_time
| pyautogui_screenshot
| screenshot_save (filename : string)
| locateCenterOnScreen (image_path : string) (confidence : Q)
| pyautogui_click (location : Point)
| subprocess_Popen (command : list string)
| requests_post (endpoint : string) (json : Json) (timeout : Z)
| recognize_voice_call
| input_call (prompt : string).

(** A handler entered with its actual arguments. *)
Inductive HandlerCall : Type :=
| open_browser_call (url : string)
| launch_telegram_call
| read_folder_call (path : string)
| take_screenshot_call (output_dir : string)
| click_button_call (image_path : string) (confidence : Q)
| fill_form_field_call (selector value : string)
| send_http_message_call (endpoint : string) (payload : Json)
| open_application_call (executable_path : string) (arguments : option string).

Inductive Event : Type :=
| Log (message : string)
| Enter (h : HandlerCall)
| Ext (c : Call).

(** The external world: which optional packages were imported, and the
    answer to the [n]-th external call of the run. *)
Record World : Type := {
  selenium_available : bool;
  pyautogui_available : bool;
  sr_available : bool;
  json_loads : string -> Answer Json;
  str_json : Json -> string;
  perform : nat -> Call -> Answer unit;
  getenv : nat -> string -> string -> string;
  exists_ : nat -> string -> Answer bool;
  home : nat -> Answer string;
  iterdir : nat -> string -> Answer (list string);
  now : nat -> Z;
  locate : nat -> string -> Answer (option Point);
  element : nat -> Session -> string -> Answer Element;
  post : nat -> string -> Json -> Answer (Z * string);
  voice : nat -> Prompt (option string);
  input : nat -> Prompt string
}.

(** The process state: the module global, the number of external calls
    made, and everything that has happened so far, oldest first. *)
Record State : Type := {
  BROWSER_SESSION : option Session;
  clock : nat;
  trace : list Event
}.

Definition initial : State :=
  {| BROWSER_SESSION := None; clock := 0; trace := [] |}.

(** How a statement ends. *)
Inductive Flow (A : Type) : Type :=
| Next (a : A)
| Return_ (v : option string)
| Break_
| Continue_
| Raise (e : exn)
| Running.
Arguments Next {A} a.
Arguments Return_ {A} v.
Arguments Break_ {A}.
Arguments Continue_ {A}.
Arguments Raise {A} e.
Arguments Running {A}.

Definition M (A : Type) : Type := State -> Flow A * State.

Definition M_ret {A} (a : A) : M A := fun st => (Next a, st).

Definition M_bind {A B} (c : M A) (k : A -> M B) : M B :=
  fun st =>
    match c st with
    | (Next a, st') => k a st'
    | (Return_ v, st') => (Return_ v, st')
    | (Break_, st') => (Break_, st')
    | (Continue_, st') => (Continue_, st')
    | (Raise e, st') => (Raise e, st')
    | (Running, st') => (Running, st')
    end.

#[global] Instance Monad_M : Monad M := {| ret := @M_ret; bind := @M_bind |}.

Definition pass : M unit := M_ret tt.
Definition return_ {A} (v : option string) : M A := fun st => (Return_ v, st).
Definition break_ {A} : M A := fun st => (Break_, st).
Definition continue_ {A} : M A := fun st => (Continue_, st).
Definition raise {A} (e : exn) : M A := fun st => (Raise e, st).

Definition emit (e : Event) : M unit :=
  fun st => (Next tt, {| BROWSER_SESSION := BROWSER_SESSION st;
                         clock := clock st;
                         trace := (trace st ++ [e])%list |}).

Definition global_BROWSER_SESSION : M (option Session) :=
  fun st => (Next (BROWSER_SESSION st), st).

Definition set_BROWSER_SESSION (s : option Session) : M unit :=
  fun st => (Next tt, {| BROWSER_SESSION := s; clock := clock st; trace := trace st |}).

(** One external call: it is recorded, the call counter advances, and the
    world's answer either is the result or is raised. *)
Definition call {A} (c : Call) (answer : nat -> Answer A) : M A :=
  fun st =>
    let st' := {| BROWSER_SESSION := BROWSER_SESSION st;
                  clock := S (clock st);
                  trace := (trace st ++ [Ext c])%list |} in
    match answer (clock st) with
    | Ok a => (Next a, st')
    | Fails e => (Raise (Exception e), st')
    end.

(** A call at which the interruption signal may arrive. *)
Definition prompt {A} (c : Call) (answer : nat -> Prompt A) : M A :=
  fun st =>
    let st' := {| BROWSER_SESSION := BROWSER_SESSION st;
                  clock := S (clock st);
                  trace := (trace st ++ [Ext c])%list |} in
    match answer (clock st) with
    | Entered a => (Next a, st')
    | Failed e => (Raise (Exception e), st')
    | Interrupted => (Raise KeyboardInterrupt, st')
    end.

(** [try: body  except ...:]  The clauses are given as a function that
    selects the handler of a raised exception, if one matches. *)
Definition try_ {A} (body : M A) (clauses : exn -> option (M A)) : M A :=
  fun st =>
    match body st with
    | (Raise e, st') =>
        match clauses e with
        | Some handler => handler st'
        | None => (Raise e, st')
        end
    | r => r
    end.

(** [except Exception as exc:] *)
Definition except_Exception {A} (handler : Exc -> M A) : exn -> option (M A) :=
  fun e => match e with Exception x => Some (handler x) | _ => None end.

(** The boundary of a [def]: [return v] ends the body with [v], falling
    off the end returns [None], an exception passes to the caller. *)
Definition def (body : M unit) : M (option string) :=
  fun st =>
    match body st with
    | (Next _, st') => (Next None, st')
    | (Return_ v, st') => (Next v, st')
    | (Break_, st') => (Break_, st')
    | (Continue_, st') => (Continue_, st')
    | (Raise e, st') => (Raise e, st')
    | (Running, st') => (Running, st')
    end.

(** [while True: body], unrolled at most [fuel] times; [Running] when the
    loop is still going after that. *)
Fixpoint while_True (fuel : nat) (body : M unit) : M unit :=
  match fuel with
  | O => fun st => (Running, st)
  | S fuel' =>
      fun st =>
        match body st with
        | (Next _, st') => while_True fuel' body st'
        | (Continue_, st') => while_True fuel' body st'
        | (Break_, st') => (Next tt, st')
        | (Return_ v, st') => (Return_ v, st')
        | (Raise e, st') => (Raise e, st')
        | (Running, st') => (Running, st')
        end
  end.

(** [for x in xs: body x] *)
Fixpoint for_in {A} (xs : list A) (body : A -> M unit) : M unit :=
  match xs with
  | [] => pass
  | x :: rest =>
      fun st =>
        match body x st with
        | (Next _, st') => for_in rest body st'
        | (Continue_, st') => for_in rest body st'
        | (Break_, st') => (Next tt, st')
        | (Return_ v, st') => (Return_ v, st')
        | (Raise e, st') => (Raise e, st')
        | (Running, st') => (Running, st')
        end
  end.

(** An expression statement: the value is dropped. *)
Definition expr {A} (c : M A) : M unit := M_bind c (fun _ => pass).

(** A pure library function that may raise. *)
Definition lift {A} (a : Answer A) : M A :=
  fun st => match a with
            | Ok x => (Next x, st)
            | Fails e => (Raise (Exception e), st)
            end.

(** The events of [tr] that are external calls, and those that are handler
    entries. *)
Definition externals (tr : list Event) : list Call :=
  flat_map (fun e => match e with Ext c => [c] | _ => [] end) tr.

Definition entered (tr : list Event) : list HandlerCall :=
  flat_map (fun e => match e with Enter h => [h] | _ => [] end) tr.

Definition logged (tr : list Event) : list string :=
  flat_map (fun e => match e with Log m => [m] | _ => [] end) tr.

End Py.

(* ===================================================================== *)
(** * The assistant *)
(* ===================================================================== *)

Module Assistant.
Import PyStr Py.
Local Open Scope monad_scope.

Definition dquote : string := String "034"%char EmptyString.

(** [pathlib]'s [/] on Windows paths. *)
Definition path_join (a b : string) : string := a ++ "\" ++ b.

Definition str_point (p : Point) : string :=
  "Point(x=" ++ str_int (fst p) ++ ", y=" ++ str_int (snd p) ++ ")".

Section Handlers.
Variable w : World.

(** [log]: the time stamp is left out of the recorded line. *)
Definition log (message : string) : M unit := emit (Log message).

Definition open_browser (url : string) : M (option string) :=
  def (
    emit (Enter (open_browser_call url)) ;;
    log ("Attempting to open browser at URL: " ++ url) ;;
    try_ (
      (if negb (selenium_available w) then
         log "Selenium is not available. Ensure selenium and a driver are installed." ;;
         return_ None
       else pass) ;;
      session <- global_BROWSER_SESSION ;;
      match session with
      | Some s =>
          try_ (
            call (session_get s url) (fun n => perform w n (session_get s url)) ;;
            log "Reused existing browser session." ;;
            return_ None)
          (except_Exception (fun session_exc =>
            log ("Existing browser session failed: " ++ str_exc session_exc
                 ++ ". Reinitializing.") ;;
            try_ (call (session_quit s) (fun n => perform w n (session_quit s)))
                 (except_Exception (fun _ => pass)) ;;
            set_BROWSER_SESSION None))
      | None => pass
      end ;;
      call ChromeOptions (fun n => perform w n ChromeOptions) ;;
      call (add_argument "--start-maximized")
           (fun n => perform w n (add_argument "--start-maximized")) ;;
      s <- call webdriver_Chrome
             (fun n => match perform w n webdriver_Chrome with
                       | Ok _ => Ok n
                       | Fails e => Fails e
                       end) ;;
      set_BROWSER_SESSION (Some s) ;;
      call (session_get s url) (fun n => perform w n (session_get s url)) ;;
      log "Browser opened successfully.")
    (except_Exception (fun exc =>
      log ("Failed to open browser: " ++ str_exc exc)))
  ).

Definition launch_telegram : M (option string) :=
  def (
    emit (Enter launch_telegram_call) ;;
    log "Attempting to launch Telegram Desktop." ;;
    try_ (
      localappdata <- call (os_getenv "LOCALAPPDATA" "")
                           (fun n => Ok (getenv w n "LOCALAPPDATA" "")) ;;
      let telegram_path :=
        path_join (path_join localappdata "Telegram Desktop") "Telegram.exe" in
      found <- call (Path_exists telegram_path) (fun n => exists_ w n telegram_path) ;;
      if found : bool then
        log ("Launching Telegram from " ++ telegram_path) ;;
        call (os_startfile telegram_path) (fun n => perform w n (os_startfile telegram_path))
      else
        log "Telegram executable not found in the default location.")
    (except_Exception (fun exc =>
      log ("Failed to launch Telegram: " ++ str_exc exc)))
  ).

Definition read_folder (path : string) : M (option string) :=
  def (
    emit (Enter (read_folder_call path)) ;;
    log ("Reading contents of folder: " ++ path) ;;
    try_ (
      found <- call (Path_exists path) (fun n => exists_ w n path) ;;
      (if negb found then
         log "Folder does not exist." ;;
         return_ None
       else pass) ;;
      items <- call (Path_iterdir path) (fun n => iterdir w n path) ;;
      for_in items (fun name => log (" - " ++ name)))
    (except_Exception (fun exc =>
      log ("Failed to read folder: " ++ str_exc exc)))
  ).

Definition take_screenshot (output_dir : string) : M (option string) :=
  def (
    emit (Enter (take_screenshot_call output_dir)) ;;
    log "Capturing screenshot." ;;
    (if negb (pyautogui_available w) then
       log "pyautogui is not available. Install it to enable screenshots." ;;
       return_ None
     else pass) ;;
    try_ (
      call (Path_mkdir output_dir) (fun n => perform w n (Path_mkdir output_dir)) ;;
      seconds <- call time_time (fun n => Ok (now w n)) ;;
      let filename :=
        path_join output_dir ("screenshot_" ++ str_int seconds ++ ".png") in
      call pyautogui_screenshot (fun n => perform w n pyautogui_screenshot) ;;
      call (screenshot_save filename) (fun n => perform w n (screenshot_save filename)) ;;
      log ("Screenshot saved to " ++ filename) ;;
      return_ (Some filename))
    (except_Exception (fun exc =>
      log ("Failed to take screenshot: " ++ str_exc exc) ;;
      return_ None))
  ).

Definition click_button (image_path : string) (confidence : Q) : M (option string) :=
  def (
    emit (Enter (click_button_call image_path confidence)) ;;
    log ("Attempting to click button using image: " ++ image_path) ;;
    (if negb (pyautogui_available w) then
       log "pyautogui is not available. Install it to enable GUI automation." ;;
       return_ None
     else pass) ;;
    try_ (
      location <- call (locateCenterOnScreen image_path confidence)
                       (fun n => locate w n image_path) ;;
      match location with
      | Some p =>
          call (pyautogui_click p) (fun n => perform w n (pyautogui_click p)) ;;
          log ("Clicked button at position: " ++ str_point p)
      | None => log "Button image not found on screen."
      end)
    (except_Exception (fun exc =>
      log ("Failed to click button: " ++ str_exc exc)))
  ).

Definition fill_form_field (selector value : string) : M (option string) :=
  def (
    emit (Enter (fill_form_field_call selector value)) ;;
    log ("Attempting to fill form field '" ++ selector ++ "' with value '"
         ++ value ++ "'") ;;
    (if negb (selenium_available w) then
       log "Selenium WebDriver is not available." ;;
       return_ None
     else pass) ;;
    try_ (
      session <- global_BROWSER_SESSION ;;
      match session with
      | None =>
          log "No active browser session. Run 'open browser <url>' first." ;;
          return_ None
      | Some s =>
          el <- call (find_element s selector) (fun n => element w n s selector) ;;
          call (element_clear el) (fun n => perform w n (element_clear el)) ;;
          call (element_send_keys el value)
               (fun n => perform w n (element_send_keys el value)) ;;
          log "Form field filled successfully."
      end)
    (except_Exception (fun exc =>
      log ("Failed to fill form field: " ++ str_exc exc)))
  ).

Definition send_http_message (endpoint : string) (payload : Json) : M (option string) :=
  def (
    emit (Enter (send_http_message_call endpoint payload)) ;;
    log ("Sending HTTP POST request to " ++ endpoint ++ " with payload "
         ++ str_json w payload) ;;
    try_ (
      response <- call (requests_post endpoint payload 10)
                       (fun n => post w n endpoint payload) ;;
      log ("Response status: " ++ str_int (fst response)) ;;
      log ("Response body: " ++ snd response))
    (except_Exception (fun exc =>
      log ("Failed to send HTTP request: " ++ str_exc exc)))
  ).

Definition open_application (executable_path : string) (arguments : option string)
  : M (option string) :=
  def (
    emit (Enter (open_application_call executable_path arguments)) ;;
    log ("Attempting to open application: " ++ executable_path) ;;
    try_ (
      found <- call (Path_exists executable_path)
                    (fun n => exists_ w n executable_path) ;;
      (if negb found then
         log "Executable path does not exist." ;;
         return_ None
       else pass) ;;
      let command :=
        match arguments with
        | Some a => if nonempty a then (executable_path :: split_ws a)%list
                    else [executable_path]
        | None => [executable_path]
        end in
      call (subprocess_Popen command) (fun n => perform w n (subprocess_Popen command)) ;;
      log "Application launched successfully.")
    (except_Exception (fun exc =>
      log ("Failed to launch application: " ++ str_exc exc)))
  ).

(** [recognize_voice] drives the microphone and the offline recognisers;
    the loop sees only what it returns or raises, which the world gives. *)
Definition recognize_voice : M (option string) :=
  prompt recognize_voice_call (voice w).

(** [a, b, c = parts] *)
Definition unpack3 (parts : list string) : M (string * string * string) :=
  match parts with
  | [a; b; c] => ret (a, b, c)
  | _ => raise (Exception (ValueError
           ("not enough values to unpack (expected 3, got "
            ++ str_int (Z.of_nat (List.length parts)) ++ ")")))
  end.

Definition execute_command (command : string) : M (option string) :=
  def (
    let command := lower (strip command) in
    log ("Processing command: " ++ command) ;;
    if startswith "open browser" command then
      let '(_, _, url) := partition "open browser" command in
      expr (open_browser (or_else (strip url) "https://www.google.com"))
    else if startswith "launch telegram" command then
      expr launch_telegram
    else if startswith "read folder" command then
      let '(_, _, folder) := partition "read folder" command in
      path <- (if nonempty (strip folder) then ret (strip folder)
               else call Path_home (home w)) ;;
      expr (read_folder path)
    else if startswith "take screenshot" command then
      expr (take_screenshot "screenshots")
    else if startswith "click button" command then
      let '(_, _, image) := partition "click button" command in
      expr (click_button (strip image) (9 # 10))
    else if startswith "fill form" command then
      let parts := split "::" command in
      match parts with
      | [_; selector; value] =>
          expr (fill_form_field (strip selector) (strip value))
      | _ =>
          log "Invalid form command format. Use 'fill form::CSS_SELECTOR::VALUE'"
      end
    else if startswith "open app" command then
      let parts := split "::" command in
      if (2 <=? List.length parts)%nat then
        let executable := strip (nth 1 parts "") in
        let args := if (List.length parts =? 3)%nat
                    then Some (strip (nth 2 parts "")) else None in
        expr (open_application executable args)
      else
        log "Invalid app command format. Use 'open app::C:/Path/To/App.exe::optional arguments'"
    else if startswith "send http" command then
      try_ (
        '(_, endpoint, payload) <- unpack3 (split_max "::" 2 command) ;;
        json_payload <- lift (json_loads w payload) ;;
        expr (send_http_message (strip endpoint) json_payload))
      (fun e =>
         match e with
         | Exception (ValueError _) =>
             Some (log ("Invalid HTTP command format. Use 'send http::URL::{"
                        ++ dquote ++ "key" ++ dquote ++ ": "
                        ++ dquote ++ "value" ++ dquote ++ "}'"))
         | Exception exc =>
             Some (log ("Failed to parse HTTP payload: " ++ str_exc exc))
         | _ => None
         end)
    else if String.eqb command "exit" || String.eqb command "quit" then
      log "Exiting assistant loop." ;;
      raise (SystemExit 0)
    else
      log "Command not recognized."
  ).

(** The body of the [while True] of [main]: one [try] statement. *)
Definition main_loop_body : M unit :=
  try_ (
    (if sr_available w then
       voice_command <- recognize_voice ;;
       match voice_command with
       | Some text =>
           if nonempty text then
             (if String.eqb (lower text) "stop listening" then
                log "Voice command loop terminated by user." ;;
                break_
              else pass) ;;
             expr (execute_command text) ;;
             continue_
           else pass
       | None => pass
       end
     else pass) ;;
    command <- prompt (input_call "Enter command (or 'exit' to quit): ")
                      (input w) ;;
    expr (execute_command command))
  (fun e =>
     match e with
     | KeyboardInterrupt =>
         Some (log "Assistant interrupted by user." ;; break_)
     | Exception exc =>
         Some (log ("Unexpected error: " ++ str_exc exc))
     | SystemExit _ => None
     end).

(** [main], with its [while True] unrolled at most [fuel] times. *)
Definition main (fuel : nat) : M (option string) :=
  def (
    log "Starting Windows Automation Assistant." ;;
    (if sr_available w then
       log "Voice recognition available. Say 'stop listening' to end voice mode."
     else
       log "Voice recognition not available; defaulting to text commands.") ;;
    while_True fuel main_loop_body ;;
    session <- global_BROWSER_SESSION ;;
    match session with
    | Some s =>
        try_ (call (session_quit s) (fun n => perform w n (session_quit s)))
             (except_Exception (fun _ => pass))
    | None => pass
    end ;;
    log "Assistant stopped."
  ).

End Handlers.

End Assistant.

(* ===================================================================== *)
(** * Running the statements symbolically *)
(* ===================================================================== *)

Module Run.
Import PyStr Py Assistant.

Lemma entered_app a b : entered (a ++ b) = (entered a ++ entered b)%list.
Proof. apply flat_map_app. Qed.

Lemma externals_app a b : externals (a ++ b) = (externals a ++ externals b)%list.
Proof. apply flat_map_app. Qed.

Lemma logged_app a b : logged (a ++ b) = (logged a ++ logged b)%list.
Proof. apply flat_map_app. Qed.

(** No event of [tr] closes a browser session. *)
Definition no_quit (tr : list Event) : Prop :=
  forall s, ~ In (session_quit s) (externals tr).

Lemma no_quit_nil : no_quit [].
Proof. intros s []. Qed.

Lemma no_quit_cons e tr :
  (forall s, e <> Ext (session_quit s)) -> no_quit tr -> no_quit (e :: tr).
Proof.
  intros He Htr s. change (e :: tr) with ([e] ++ tr)%list.
  rewrite externals_app, in_app_iff. intros [H|H]; [|exact (Htr s H)].
  destruct e as [m|h|c]; cbn in H; try contradiction.
  destruct H as [->|[]]. exact (He s eq_refl).
Qed.

Lemma no_quit_logs {A} (f : A -> string) xs : no_quit (map (fun x => Log (f x)) xs).
Proof.
  induction xs as [|x xs IH]; [exact no_quit_nil|].
  apply no_quit_cons; [discriminate|exact IH].
Qed.

Lemma entered_logs {A} (f : A -> string) xs : entered (map (fun x => Log (f x)) xs) = [].
Proof. induction xs as [|x xs IH]; [reflexivity|exact IH]. Qed.

Lemma externals_logs {A} (f : A -> string) xs : externals (map (fun x => Log (f x)) xs) = [].
Proof. induction xs as [|x xs IH]; [reflexivity|exact IH]. Qed.

(** A [for] loop whose body only logs. *)
Lemma for_in_logs {A} (f : A -> string) xs st :
  for_in xs (fun x st0 =>
               (Next tt, {| BROWSER_SESSION := BROWSER_SESSION st0;
                            clock := clock st0;
                            trace := (trace st0 ++ [Log (f x)])%list |})) st
  = (Next tt, {| BROWSER_SESSION := BROWSER_SESSION st;
                 clock := clock st;
                 trace := (trace st ++ map (fun x => Log (f x)) xs)%list |}).
Proof.
  revert st; induction xs as [|x xs IH]; intros st; cbn [for_in map].
  - rewrite app_nil_r. destruct st; reflexivity.
  - rewrite IH. cbn [BROWSER_SESSION clock trace].
    rewrite <- app_assoc. reflexivity.
Qed.

(** Unfold the statement combinators, leaving the world's answers and
    the string operations alone. *)
Ltac py_unfold :=
  cbv beta iota zeta delta
    [M_bind M_ret bind ret Monad_M def try_ log emit call prompt
     except_Exception global_BROWSER_SESSION set_BROWSER_SESSION return_
     pass expr lift raise break_ continue_ recognize_voice unpack3 negb];
  cbn [BROWSER_SESSION clock trace fst snd negb].

(** Case analysis on the innermost undetermined answer or test. *)
Ltac step :=
  match goal with
  | |- context [match ?x with _ => _ end] =>
      lazymatch x with
      | context [match _ with _ => _ end] => fail
      | _ => idtac
      end;
      match type of x with
      | Answer _ => destruct x eqn:?
      | Prompt _ => destruct x eqn:?
      | bool => destruct x eqn:?
      | option _ => destruct x eqn:?
      | Exc => destruct x eqn:?
      end
  end.

Ltac run := py_unfold; repeat (step; py_unfold).

Ltac tidy :=
  cbn [trace clock BROWSER_SESSION fst snd];
  repeat rewrite <- app_assoc; cbn [app].

Ltac quiet :=
  repeat first [ exact no_quit_nil
               | apply no_quit_logs
               | apply no_quit_cons; [discriminate|] ].

(** What every handler but [open_browser] does to the process state: it
    returns, it is entered once, it leaves the session handle alone and
    closes no session. *)
Definition plain (c : M (option string)) (h : HandlerCall) : Prop :=
  forall st, exists v st' rest,
    c st = (Next v, st')
    /\ trace st' = (trace st ++ Enter h :: rest)%list
    /\ entered rest = []
    /\ no_quit rest
    /\ BROWSER_SESSION st' = BROWSER_SESSION st
    /\ clock st <= clock st'.

Ltac plain_done :=
  do 3 eexists; split; [reflexivity|]; tidy;
  split; [reflexivity|];
  split; [try reflexivity|];
  split; [quiet|];
  split; [reflexivity|lia].

Section Handlers.
Variable w : World.

Lemma launch_telegram_plain : plain (launch_telegram w) launch_telegram_call.
Proof. intros st. unfold launch_telegram. run; plain_done. Qed.

Lemma read_folder_plain path : plain (read_folder w path) (read_folder_call path).
Proof.
  intros st. unfold read_folder. run; try rewrite for_in_logs; py_unfold;
    try plain_done.
  do 3 eexists; split; [reflexivity|]; tidy.
  split; [reflexivity|]. split; [apply entered_logs|].
  split; [quiet|]. split; [reflexivity|lia].
Qed.

Lemma take_screenshot_plain dir :
  plain (take_screenshot w dir) (take_screenshot_call dir).
Proof. intros st. unfold take_screenshot. run; plain_done. Qed.

Lemma click_button_plain image conf :
  plain (click_button w image conf) (click_button_call image conf).
Proof. intros st. unfold click_button. run; plain_done. Qed.

Lemma fill_form_field_plain selector value :
  plain (fill_form_field w selector value) (fill_form_field_call selector value).
Proof. intros st. unfold fill_form_field. run; plain_done. Qed.

Lemma send_http_message_plain endpoint payload :
  plain (send_http_message w endpoint payload)
        (send_http_message_call endpoint payload).
Proof. intros st. unfold send_http_message. run; plain_done. Qed.

Lemma open_application_plain exe args :
  plain (open_application w exe args) (open_application_call exe args).
Proof. intros st. unfold open_application. run; plain_done. Qed.

(** The handle, when set, names a session that this run created and
    never closed; sessions are only closed after they were created. *)
Definition session_inv (st : State) : Prop :=
  (forall s, In (session_quit s) (externals (trace st)) -> s < clock st)
  /\ (forall s, BROWSER_SESSION st = Some s ->
        selenium_available w = true
        /\ s < clock st
        /\ ~ In (session_quit s) (externals (trace st))).

Lemma session_inv_initial : session_inv initial.
Proof. split; [intros s []|intros s [=]]. Qed.

Ltac in_calls H :=
  cbn [externals flat_map app In] in H;
  repeat (destruct H as [H|H]; [inversion H; subst; try lia|]);
  try contradiction.

Ltac session_inv_tac Hq Hnq :=
  split; cbn [trace clock BROWSER_SESSION]; intros ?s0;
  rewrite ?externals_app, ?in_app_iff;
  [ intros [H|H]; [apply Hq in H; lia | in_calls H]
  | intros Heq;
    first
      [ discriminate Heq
      | injection Heq as <-;
        split; [assumption|];
        split; [lia|];
        intros [H|H];
        [ first [exact (Hnq H) | apply Hq in H; lia] | in_calls H ] ] ].

(** The creation sequence after which no fresh session exists. *)
Definition creation_failed (calls : list Call) : Prop :=
  calls = [ChromeOptions]
  \/ calls = [ChromeOptions; add_argument "--start-maximized"]
  \/ calls = [ChromeOptions; add_argument "--start-maximized"; webdriver_Chrome].

Definition creation_done (s' : Session) (url : string) (calls : list Call) : Prop :=
  calls = [ChromeOptions; add_argument "--start-maximized"; webdriver_Chrome;
           session_get s' url].

Lemma open_browser_live url st s :
  session_inv st -> BROWSER_SESSION st = Some s ->
  exists st' new,
    open_browser w url st = (Next None, st')
    /\ trace st' = (trace st ++ new)%list
    /\ session_inv st'
    /\ match perform w (clock st) (session_get s url) with
       | Ok _ =>
           externals new = [session_get s url]
           /\ BROWSER_SESSION st' = Some s
       | Fails _ =>
           exists rest,
             externals new = session_get s url :: session_quit s :: rest
             /\ ((BROWSER_SESSION st' = None /\ creation_failed rest)
                 \/ (exists s', BROWSER_SESSION st' = Some s' /\ s' <> s
                                /\ creation_done s' url rest))
       end.
Proof.
  intros [Hq Hs] Hlive. destruct (Hs _ Hlive) as (Hsel & Hlt & Hnq).
  unfold open_browser. py_unfold. rewrite Hsel, Hlive. run.
  all: do 2 eexists; split; [reflexivity|]; tidy; split; [reflexivity|].
  all: split; [session_inv_tac Hq Hnq|].
  all: cbn [externals flat_map app].
  all: try (split; reflexivity).
  all: eexists; split; [reflexivity|].
  all: unfold creation_failed, creation_done.
  all: first [ left; split; [reflexivity|]; tauto
             | right; eexists; split; [reflexivity|]; split; [lia|reflexivity] ].
Qed.

Lemma open_browser_returns url st :
  exists st' rest,
    open_browser w url st = (Next None, st')
    /\ trace st' = (trace st ++ Enter (open_browser_call url) :: rest)%list
    /\ entered rest = []
    /\ clock st <= clock st'.
Proof.
  unfold open_browser. run.
  all: do 2 eexists; split; [reflexivity|]; tidy.
  all: split; [reflexivity|]; split; [reflexivity|lia].
Qed.

Lemma open_browser_inv url st :
  session_inv st -> session_inv (snd (open_browser w url st)).
Proof.
  intros Hinv. destruct (BROWSER_SESSION st) as [s|] eqn:Hlive.
  - destruct (open_browser_live url st s Hinv Hlive) as (st' & new & E & _ & H & _).
    rewrite E. exact H.
  - destruct Hinv as [Hq Hs].
    assert (Hnq : forall s, In (session_quit s) (externals (trace st)) -> False -> False)
      by tauto.
    unfold open_browser. py_unfold. rewrite Hlive. run; tidy.
    all: split; cbn [trace clock BROWSER_SESSION]; intros s0;
      rewrite ?externals_app, ?in_app_iff.
    all: try (intros [H|H]; [apply Hq in H; lia | in_calls H]).
    all: try (intros H; exact (Hq _ H)).
    all: intros Heq; try discriminate Heq.
    all: injection Heq as <-.
    all: split; [destruct (selenium_available w); [reflexivity|discriminate]|].
    all: split; [lia|].
    all: intros [H|H]; [apply Hq in H; lia | in_calls H].
Qed.

End Handlers.
End Run.

(* ===================================================================== *)
(** * The dispatcher *)
(* ===================================================================== *)

Module Dispatch.
Import PyStr Py Assistant Run.

(** [st] after [ticks] more external calls and the events [new], with the
    session handle as it was. *)
Definition after (st : State) (ticks : nat) (new : list Event) : State :=
  {| BROWSER_SESSION := BROWSER_SESSION st;
     clock := ticks + clock st;
     trace := trace st ++ new |}.

(** The first line every command logs; [c] is the normalised command. *)
Definition processing (c : string) : Event := Log ("Processing command: " ++ c).

Definition is_exit (c : string) : bool := String.eqb c "exit" || String.eqb c "quit".

(** The tests of [execute_command], in its order. *)
Definition recognized (c : string) : bool :=
  startswith "open browser" c || startswith "launch telegram" c
  || startswith "read folder" c || startswith "take screenshot" c
  || startswith "click button" c || startswith "fill form" c
  || startswith "open app" c || startswith "send http" c
  || is_exit c.

Definition invalid_form : string :=
  "Invalid form command format. Use 'fill form::CSS_SELECTOR::VALUE'".

Definition invalid_app : string :=
  "Invalid app command format. Use 'open app::C:/Path/To/App.exe::optional arguments'".

Definition invalid_http : string :=
  "Invalid HTTP command format. Use 'send http::URL::{"
  ++ dquote ++ "key" ++ dquote ++ ": " ++ dquote ++ "value" ++ dquote ++ "}'".

Lemma startswith_drop p s :
  startswith p s = true -> s = p ++ drop (String.length p) s.
Proof.
  revert s; induction p as [|a p IH]; intros [|b s]; cbn; try discriminate; auto.
  intros H. apply andb_true_iff in H as [Hab Hp].
  apply Ascii.eqb_eq in Hab as ->. f_equal. exact (IH _ Hp).
Qed.

(** Two verbs that differ cannot both begin the same line. *)
Ltac clash H := rewrite (startswith_drop _ _ H); reflexivity.

Lemma is_exit_inv c : is_exit c = true -> c = "exit" \/ c = "quit".
Proof.
  unfold is_exit. intros H. apply orb_true_iff in H as [H|H];
    apply String.eqb_eq in H; auto.
Qed.

Section Branches.
Variable w : World.

(** ** No verb matches *)

Lemma execute_unrecognized command st :
  recognized (lower (strip command)) = false ->
  execute_command w command st
  = (Next None,
     after st 0 [processing (lower (strip command)); Log "Command not recognized."]).
Proof.
  intros H. unfold recognized, is_exit in H.
  repeat (apply orb_false_iff in H; destruct H as [H ?]).
  unfold execute_command. cbv zeta.
  repeat match goal with E : _ = false |- _ => rewrite E; clear E end.
  py_unfold. unfold after, processing. tidy. reflexivity.
Qed.

(** ** [fill form] *)

Lemma execute_fill_form command st :
  let c := lower (strip command) in
  startswith "fill form" c = true ->
  match split "::" c with
  | [_; selector; value] =>
      execute_command w command st
      = (Next None,
         snd (fill_form_field w (strip selector) (strip value) (after st 0 [processing c])))
  | _ =>
      execute_command w command st
      = (Next None, after st 0 [processing c; Log invalid_form])
  end.
Proof.
  intros c H.
  assert (H1 : startswith "open browser" c = false) by clash H.
  assert (H2 : startswith "launch telegram" c = false) by clash H.
  assert (H3 : startswith "read folder" c = false) by clash H.
  assert (H4 : startswith "take screenshot" c = false) by clash H.
  assert (H5 : startswith "click button" c = false) by clash H.
  unfold execute_command. cbv zeta. fold c. rewrite H1, H2, H3, H4, H5, H.
  destruct (split "::" c) as [|p0 [|p1 [|p2 [|p3 ps]]]];
    try (py_unfold; unfold after, processing, invalid_form; tidy; reflexivity).
  py_unfold. unfold after, processing.
  destruct (fill_form_field_plain w (strip p1) (strip p2)
              {| BROWSER_SESSION := BROWSER_SESSION st; clock := 0 + clock st;
                 trace := trace st ++ [Log ("Processing command: " ++ c)] |})
    as (v & st' & rest & E & _).
  cbn [Nat.add] in *. rewrite E. reflexivity.
Qed.

(** ** [open app] *)

Lemma execute_open_app command st :
  let c := lower (strip command) in
  let st1 := after st 0 [processing c] in
  startswith "open app" c = true ->
  match split "::" c with
  | [] | [_] =>
      execute_command w command st
      = (Next None, after st 0 [processing c; Log invalid_app])
  | [_; executable] =>
      execute_command w command st
      = (Next None, snd (open_application w (strip executable) None st1))
  | [_; executable; args] =>
      execute_command w command st
      = (Next None, snd (open_application w (strip executable) (Some (strip args)) st1))
  | _ :: executable :: _ :: _ :: _ =>
      execute_command w command st
      = (Next None, snd (open_application w (strip executable) None st1))
  end.
Proof.
  intros c st1 H.
  assert (H1 : startswith "open browser" c = false) by clash H.
  assert (H2 : startswith "launch telegram" c = false) by clash H.
  assert (H3 : startswith "read folder" c = false) by clash H.
  assert (H4 : startswith "take screenshot" c = false) by clash H.
  assert (H5 : startswith "click button" c = false) by clash H.
  assert (H6 : startswith "fill form" c = false) by clash H.
  unfold execute_command. cbv zeta. fold c. rewrite H1, H2, H3, H4, H5, H6, H.
  destruct (split "::" c) as [|p0 [|p1 [|p2 [|p3 ps]]]];
    cbn [List.length Nat.leb Nat.eqb nth];
    try (py_unfold; unfold after, processing, invalid_app; tidy; reflexivity).
  all: py_unfold; subst st1; unfold after, processing; cbn [Nat.add].
  all: match goal with
       | |- context [open_application w ?e ?a ?s] =>
           destruct (open_application_plain w e a s) as (v & st' & rest & E & _);
           rewrite E; reflexivity
       end.
Qed.

(** ** [send http] *)

Lemma execute_send_http command st :
  let c := lower (strip command) in
  startswith "send http" c = true ->
  match split_max "::" 2 c with
  | [_; endpoint; payload] =>
      match json_loads w payload with
      | Ok body =>
          execute_command w command st
          = (Next None,
             after st 1
               (processing c
                :: Enter (send_http_message_call (strip endpoint) body)
                :: Log ("Sending HTTP POST request to " ++ strip endpoint
                        ++ " with payload " ++ str_json w body)
                :: Ext (requests_post (strip endpoint) body 10)
                :: match post w (clock st) (strip endpoint) body with
                   | Ok response =>
                       [Log ("Response status: " ++ str_int (fst response));
                        Log ("Response body: " ++ snd response)]
                   | Fails exc =>
                       [Log ("Failed to send HTTP request: " ++ str_exc exc)]
                   end))
      | Fails (ValueError _) =>
          execute_command w command st
          = (Next None, after st 0 [processing c; Log invalid_http])
      | Fails (Error msg) =>
          execute_command w command st
          = (Next None,
             after st 0 [processing c; Log ("Failed to parse HTTP payload: " ++ msg)])
      end
  | _ =>
      execute_command w command st
      = (Next None, after st 0 [processing c; Log invalid_http])
  end.
Proof.
  intros c H.
  assert (H1 : startswith "open browser" c = false) by clash H.
  assert (H2 : startswith "launch telegram" c = false) by clash H.
  assert (H3 : startswith "read folder" c = false) by clash H.
  assert (H4 : startswith "take screenshot" c = false) by clash H.
  assert (H5 : startswith "click button" c = false) by clash H.
  assert (H6 : startswith "fill form" c = false) by clash H.
  assert (H7 : startswith "open app" c = false) by clash H.
  unfold execute_command. cbv zeta. fold c. rewrite H1, H2, H3, H4, H5, H6, H7, H.
  destruct (split_max "::" 2 c) as [|p0 [|p1 [|p2 [|p3 ps]]]];
    try (py_unfold; unfold after, processing, invalid_http; tidy; reflexivity).
  unfold send_http_message.
  destruct (json_loads w p2) as [body|[m|m]] eqn:J;
    py_unfold; rewrite ?J; py_unfold;
    try (unfold after, processing, invalid_http; tidy; reflexivity).
  cbn [Nat.add].
  destruct (post w (clock st) (strip p1) body) as [response|exc];
    py_unfold; unfold after, processing; tidy; reflexivity.
Qed.

End Branches.

(** * The handlers on their own *)

Section Handlers.
Variable w : World.

(** [arguments.split()], nothing when there are no arguments. *)
Definition words (arguments : option string) : list string :=
  match arguments with Some a => split_ws a | None => [] end.

Lemma open_application_runs executable arguments st :
  let entry := [Enter (open_application_call executable arguments);
                Log ("Attempting to open application: " ++ executable);
                Ext (Path_exists executable)] in
  let command := executable :: words arguments in
  open_application w executable arguments st
  = (Next None,
     match exists_ w (clock st) executable with
     | Ok true =>
         after st 2
           (entry ++
            [Ext (subprocess_Popen command);
             match perform w (S (clock st)) (subprocess_Popen command) with
             | Ok _ => Log "Application launched successfully."
             | Fails exc => Log ("Failed to launch application: " ++ str_exc exc)
             end])
     | Ok false => after st 1 (entry ++ [Log "Executable path does not exist."])
     | Fails exc =>
         after st 1 (entry ++ [Log ("Failed to launch application: " ++ str_exc exc)])
     end).
Proof.
  intros entry command.
  assert (Hc : match arguments with
               | Some a => if nonempty a then (executable :: split_ws a)%list
                           else [executable]
               | None => [executable]
               end = command).
  { subst command. destruct arguments as [[|a0 a]|]; reflexivity. }
  unfold open_application. rewrite Hc. clearbody command.
  run; subst entry; unfold after; tidy; reflexivity.
Qed.

Lemma fill_form_field_no_session selector value st :
  BROWSER_SESSION st = None ->
  fill_form_field w selector value st
  = (Next None,
     after st 0
       [Enter (fill_form_field_call selector value);
        Log ("Attempting to fill form field '" ++ selector ++ "' with value '"
             ++ value ++ "'");
        Log (if selenium_available w
             then "No active browser session. Run 'open browser <url>' first."
             else "Selenium WebDriver is not available.")]).
Proof.
  intros Hs. unfold fill_form_field. py_unfold. rewrite Hs.
  destruct (selenium_available w); py_unfold; unfold after; tidy;
    rewrite ?Hs; reflexivity.
Qed.

End Handlers.

(** * What leaves [execute_command], and what its handlers are given *)

Section Outcomes.
Variable w : World.







(** ** Arguments are cut out of the lowered line *)











(** ** The loop of [main] *)








(** ** The session handle stays sound *)







End Outcomes.
End Dispatch.

(* ===================================================================== *)
(** * Concrete worlds *)
(* ===================================================================== *)

Module Scenario.
Import PyStr Py Assistant Run Dispatch.

(** The one JSON text the scripted parser knows: an object with key [a]
    and value 1. *)
Definition a_is_1 : string := "{" ++ dquote ++ "a" ++ dquote ++ ":1}".

(** A world given by its packages, its file system answer, the answers of
    the effectful calls, what is heard and typed, and the home directory. *)
Definition scripted (selenium speech found : bool)
    (performs : nat -> Call -> Answer unit)
    (heard : nat -> Prompt (option string))
    (typed : nat -> Prompt string)
    (home_dir : Answer string) : World :=
  {| selenium_available := selenium;
     pyautogui_available := true;
     sr_available := speech;
     json_loads := fun text =>
       if String.eqb text a_is_1 then Ok (JDict [("a", JInt 1)])
       else Fails (ValueError "Expecting value");
     str_json := fun _ => "{'a': 1}";
     perform := performs;
     getenv := fun _ _ default => default;
     exists_ := fun _ _ => Ok found;
     home := fun _ => home_dir;
     iterdir := fun _ _ => Ok ["notes.txt"];
     now := fun _ => 1700000000%Z;
     locate := fun _ _ => Ok None;
     element := fun n _ _ => Ok n;
     post := fun _ _ _ => Ok (200%Z, "ok");
     voice := heard;
     input := typed |}.

Definition always_ok : nat -> Call -> Answer unit := fun _ _ => Ok tt.
Definition silence : nat -> Prompt (option string) := fun _ => Entered None.
Definition users_home : Answer string := Ok "C:\Users\Ada".

(** Everything installed and working; the user opens a page, then types
    [exit]. *)
Definition opens_then_exits : World :=
  scripted true false true always_ok silence
    (fun n => match n with
              | 0 => Entered "open browser http://example.org"
              | _ => Entered "exit"
              end)
    users_home.

(** The same session, ended by Ctrl-C at the prompt instead. *)
Definition opens_then_interrupts : World :=
  scripted true false true always_ok silence
    (fun n => match n with
              | 0 => Entered "open browser http://example.org"
              | _ => Interrupted
              end)
    users_home.


(** The home directory cannot be determined. *)
Definition homeless : World :=
  scripted true false true always_ok silence
    (fun _ => Entered "read folder")
    (Fails (Error "Could not determine home directory.")).

(** Selenium is not installed. *)
Definition no_selenium : World :=
  scripted false false true always_ok silence (fun _ => Entered "exit") users_home.

(** The browser dies after it was opened: navigating the old session and
    closing it both fail, a new browser starts. *)
Definition stale_driver : World :=
  scripted true false true
    (fun n c => match c with
                | session_get 2 _ =>
                    if (n <? 4)%nat then Ok tt else Fails (Error "invalid session id")
                | session_quit _ => Fails (Error "connection refused")
                | _ => Ok tt
                end)
    silence (fun _ => Entered "exit") users_home.

(** The state once [stale_driver] has opened its first browser. *)
Definition browsing : State := snd (open_browser stale_driver "http://a.example" initial).

Example browsing_session : BROWSER_SESSION browsing = Some 2.
Proof. reflexivity. Qed.

End Scenario.

(* ===================================================================== *)
(** * The specification, claim by claim *)
(* ===================================================================== *)

Module Spec.
Import PyStr Py Assistant Run Dispatch Scenario.

(** ** Exit and the browser session *)

(** C1 (defect in the code).  The exit words make the dispatcher raise
    [SystemExit(0)].  The loop of [main] catches [KeyboardInterrupt] and
    [Exception] only, so the exception leaves [main] from inside the loop:
    no further command is read, but the statements after the loop, which
    close a live browser session and log the last line, are not reached.
    In the first run the session opened by the first command is still set
    at the end and was never closed; in the second run, ended by an
    interruption instead, it is closed. *)
Theorem exit_skips_session_cleanup :
  main opens_then_exits 5 initial
  = (Raise (SystemExit 0),
     {| BROWSER_SESSION := Some 3;
        clock := 6;
        trace :=
          [Log "Starting Windows Automation Assistant.";
           Log "Voice recognition not available; defaulting to text commands.";
           Ext (input_call "Enter command (or 'exit' to quit): ");
           Log "Processing command: open browser http://example.org";
           Enter (open_browser_call "http://example.org");
           Log "Attempting to open browser at URL: http://example.org";
           Ext ChromeOptions;
           Ext (add_argument "--start-maximized");
           Ext webdriver_Chrome;
           Ext (session_get 3 "http://example.org");
           Log "Browser opened successfully.";
           Ext (input_call "Enter command (or 'exit' to quit): ");
           Log "Processing command: exit";
           Log "Exiting assistant loop."] |})
  /\ main opens_then_interrupts 5 initial
     = (Next None,
        {| BROWSER_SESSION := Some 3;
           clock := 7;
           trace :=
             [Log "Starting Windows Automation Assistant.";
              Log "Voice recognition not available; defaulting to text commands.";
              Ext (input_call "Enter command (or 'exit' to quit): ");
              Log "Processing command: open browser http://example.org";
              Enter (open_browser_call "http://example.org");
              Log "Attempting to open browser at URL: http://example.org";
              Ext ChromeOptions;
              Ext (add_argument "--start-maximized");
              Ext webdriver_Chrome;
              Ext (session_get 3 "http://example.org");
              Log "Browser opened successfully.";
              Ext (input_call "Enter command (or 'exit' to quit): ");
              Log "Assistant interrupted by user.";
              Ext (session_quit 3);
              Log "Assistant stopped."] |}).
Proof. split; vm_compute; reflexivity. Qed.

(** ** [open app] *)

(** C2, as amended.  A line that starts with [open app] is split on [::].
    With a single field the format error is logged and the launch handler is
    not called.  With two or more fields the handler is called with the
    stripped second field as executable; the stripped third field is passed
    as arguments exactly when there are three fields, and nothing is passed
    when there are two, or four or more. *)
Theorem open_app_field_count (w : World) (command : string) (st : State) :
  let c := lower (strip command) in
  let st1 := after st 0 [processing c] in
  startswith "open app" c = true ->
  match split "::" c with
  | [] | [_] =>
      execute_command w command st
      = (Next None, after st 0 [processing c; Log invalid_app])
  | [_; executable] =>
      execute_command w command st
      = (Next None, snd (open_application w (strip executable) None st1))
  | [_; executable; args] =>
      execute_command w command st
      = (Next None, snd (open_application w (strip executable) (Some (strip args)) st1))
  | _ :: executable :: _ :: _ :: _ =>
      execute_command w command st
      = (Next None, snd (open_application w (strip executable) None st1))
  end.
Proof. exact (execute_open_app w command st). Qed.

Lemma open_app_field_count_witness :
  startswith "open app" (lower (strip "Open App::C:/Tools/Edit.exe:: -n  notes.txt ")) = true
  /\ execute_command opens_then_exits "Open App::C:/Tools/Edit.exe:: -n  notes.txt " initial
     = (Next None,
        snd (open_application opens_then_exits "c:/tools/edit.exe" (Some "-n  notes.txt")
               (after initial 0
                  [processing "open app::c:/tools/edit.exe:: -n  notes.txt"]))).
Proof.
  split; [reflexivity|].
  exact (open_app_field_count opens_then_exits
           "Open App::C:/Tools/Edit.exe:: -n  notes.txt " initial eq_refl).
Defined.

(** C2, as stated, fails: a line with four fields is not rejected; the
    handler is called, without arguments, and the process is started. *)
Lemma open_app_four_fields_launches :
  startswith "open app" (lower (strip "open app::C:/x.exe::-v::extra")) = true
  /\ List.length (split "::" (lower (strip "open app::C:/x.exe::-v::extra"))) = 4
  /\ execute_command opens_then_exits "open app::C:/x.exe::-v::extra" initial
     = (Next None,
        {| BROWSER_SESSION := None;
           clock := 2;
           trace :=
             [Log "Processing command: open app::c:/x.exe::-v::extra";
              Enter (open_application_call "c:/x.exe" None);
              Log "Attempting to open application: c:/x.exe";
              Ext (Path_exists "c:/x.exe");
              Ext (subprocess_Popen ["c:/x.exe"]);
              Log "Application launched successfully."] |}).
Proof. repeat split; vm_compute; reflexivity. Qed.

(** ** Failures and the loop *)




(** ** The browser session *)

(** C4.  In a state the run can be in (the handle, when set, names a
    session that was created and never closed, and Selenium is installed),
    [open_browser] with a live handle first navigates the existing session.
    If that succeeds nothing else is called and the handle stays.  If it
    raises, the old session is closed next, whatever the close answers, and
    the handle is cleared: either the creation of a new browser fails and no
    handle is left, or the handle names the new session.  In every case the
    handler returns normally and the handle again names a session that was
    never closed. *)
Theorem open_browser_reuses_or_replaces
    (w : World) (url : string) (st : State) (s : Session) :
  session_inv w st ->
  BROWSER_SESSION st = Some s ->
  exists st' new,
    open_browser w url st = (Next None, st')
    /\ trace st' = (trace st ++ new)%list
    /\ session_inv w st'
    /\ match perform w (clock st) (session_get s url) with
       | Ok _ =>
           externals new = [session_get s url]
           /\ BROWSER_SESSION st' = Some s
       | Fails _ =>
           exists rest,
             externals new = session_get s url :: session_quit s :: rest
             /\ ((BROWSER_SESSION st' = None /\ creation_failed rest)
                 \/ (exists s', BROWSER_SESSION st' = Some s' /\ s' <> s
                                /\ creation_done s' url rest))
       end.
Proof. exact (open_browser_live w url st s). Qed.

Lemma open_browser_reuses_or_replaces_witness :
  session_inv stale_driver browsing
  /\ BROWSER_SESSION browsing = Some 2
  /\ exists st',
       open_browser stale_driver "http://b.example" browsing = (Next None, st')
       /\ session_inv stale_driver st'
       /\ BROWSER_SESSION st' = Some 8
       /\ externals (trace st')
          = [ChromeOptions; add_argument "--start-maximized"; webdriver_Chrome;
             session_get 2 "http://a.example";
             session_get 2 "http://b.example"; session_quit 2;
             ChromeOptions; add_argument "--start-maximized"; webdriver_Chrome;
             session_get 8 "http://b.example"].
Proof.
  assert (I : session_inv stale_driver browsing)
    by (apply open_browser_inv, session_inv_initial).
  split; [exact I|]. split; [reflexivity|].
  destruct (open_browser_reuses_or_replaces stale_driver "http://b.example"
              browsing 2 I eq_refl) as (st' & new & E & _ & I' & _).
  exists st'. split; [exact E|]. split; [exact I'|].
  assert (E' : st' = snd (open_browser stale_driver "http://b.example" browsing))
    by (rewrite E; reflexivity).
  rewrite E'. split; vm_compute; reflexivity.
Defined.

(** ** [send http] *)

(** C5.  A line that starts with [send http] is cut at its first two [::].
    With fewer than three fields, or with a body that [json.loads] rejects,
    one error line about the format is logged and nothing else happens: no
    handler is entered and no request is made.  With three fields and a
    body that parses, [send_http_message] is entered once with the stripped
    endpoint and the parsed body, and [requests.post] is called exactly once
    with them and a timeout of 10; whether it answers or raises, the outcome
    is logged and the dispatcher returns normally. *)
Theorem send_http_parses_then_posts_once (w : World) (command : string) (st : State) :
  let c := lower (strip command) in
  startswith "send http" c = true ->
  match split_max "::" 2 c with
  | [_; endpoint; payload] =>
      match json_loads w payload with
      | Ok body =>
          execute_command w command st
          = (Next None,
             after st 1
               (processing c
                :: Enter (send_http_message_call (strip endpoint) body)
                :: Log ("Sending HTTP POST request to " ++ strip endpoint
                        ++ " with payload " ++ str_json w body)
                :: Ext (requests_post (strip endpoint) body 10)
                :: match post w (clock st) (strip endpoint) body with
                   | Ok response =>
                       [Log ("Response status: " ++ str_int (fst response));
                        Log ("Response body: " ++ snd response)]
                   | Fails exc =>
                       [Log ("Failed to send HTTP request: " ++ str_exc exc)]
                   end))
      | Fails (ValueError _) =>
          execute_command w command st
          = (Next None, after st 0 [processing c; Log invalid_http])
      | Fails (Error msg) =>
          execute_command w command st
          = (Next None,
             after st 0 [processing c; Log ("Failed to parse HTTP payload: " ++ msg)])
      end
  | _ =>
      execute_command w command st
      = (Next None, after st 0 [processing c; Log invalid_http])
  end.
Proof. exact (execute_send_http w command st). Qed.

Lemma send_http_parses_then_posts_once_witness :
  startswith "send http" (lower (strip ("send http::URL::" ++ a_is_1))) = true
  /\ execute_command opens_then_exits ("send http::URL::" ++ a_is_1) initial
     = (Next None,
        {| BROWSER_SESSION := None;
           clock := 1;
           trace :=
             [processing ("send http::url::" ++ a_is_1);
              Enter (send_http_message_call "url" (JDict [("a", JInt 1)]));
              Log "Sending HTTP POST request to url with payload {'a': 1}";
              Ext (requests_post "url" (JDict [("a", JInt 1)]) 10);
              Log "Response status: 200";
              Log "Response body: ok"] |}).
Proof.
  split; [reflexivity|].
  exact (send_http_parses_then_posts_once opens_then_exits
           ("send http::URL::" ++ a_is_1) initial eq_refl).
Defined.

(** ** [fill form] *)

(** C6.  A line that starts with [fill form] is split on [::] throughout.
    With exactly three fields [fill_form_field] is called with the stripped
    second and third field.  With any other number of fields the format
    error is logged and that is all: no handler is entered and no external
    call is made. *)
Theorem fill_form_needs_three_fields (w : World) (command : string) (st : State) :
  let c := lower (strip command) in
  startswith "fill form" c = true ->
  match split "::" c with
  | [_; selector; value] =>
      execute_command w command st
      = (Next None,
         snd (fill_form_field w (strip selector) (strip value) (after st 0 [processing c])))
  | _ =>
      execute_command w command st
      = (Next None, after st 0 [processing c; Log invalid_form])
  end.
Proof. exact (execute_fill_form w command st). Qed.

Lemma fill_form_needs_three_fields_witness :
  startswith "fill form" (lower (strip "fill form::#q::a::b")) = true
  /\ execute_command opens_then_exits "fill form::#q::a::b" initial
     = (Next None,
        {| BROWSER_SESSION := None;
           clock := 0;
           trace :=
             [Log "Processing command: fill form::#q::a::b";
              Log "Invalid form command format. Use 'fill form::CSS_SELECTOR::VALUE'"] |}).
Proof.
  split; [reflexivity|].
  exact (fill_form_needs_three_fields opens_then_exits "fill form::#q::a::b"
           initial eq_refl).
Defined.

(** ** [open_application] *)

(** C7.  [open_application] asks whether the path exists and does nothing
    else before.  If the answer is no, it logs that and returns; if the
    question itself fails, it logs the failure and returns; in neither case
    is a process started.  Only when the path exists does it call
    [subprocess.Popen], once, with the path followed by the arguments split
    on white space, and it does not wait for the process. *)
Theorem open_application_spawns_only_existing
    (w : World) (executable : string) (arguments : option string) (st : State) :
  let entry := [Enter (open_application_call executable arguments);
                Log ("Attempting to open application: " ++ executable);
                Ext (Path_exists executable)] in
  let command := executable :: words arguments in
  open_application w executable arguments st
  = (Next None,
     match exists_ w (clock st) executable with
     | Ok true =>
         after st 2
           (entry ++
            [Ext (subprocess_Popen command);
             match perform w (S (clock st)) (subprocess_Popen command) with
             | Ok _ => Log "Application launched successfully."
             | Fails exc => Log ("Failed to launch application: " ++ str_exc exc)
             end])
     | Ok false => after st 1 (entry ++ [Log "Executable path does not exist."])
     | Fails exc =>
         after st 1 (entry ++ [Log ("Failed to launch application: " ++ str_exc exc)])
     end).
Proof. exact (open_application_runs w executable arguments st). Qed.

(** ** Unrecognised commands *)

(** C8.  A line that, trimmed and lowered, starts with none of the eight
    verbs and is neither exit word is logged as not recognised, and nothing
    else: the dispatcher returns normally, no handler is entered, no
    external call is made and the session handle is as before. *)
Theorem unrecognized_command_is_inert (w : World) (command : string) (st : State) :
  recognized (lower (strip command)) = false ->
  execute_command w command st
  = (Next None,
     after st 0 [processing (lower (strip command)); Log "Command not recognized."])
  /\ BROWSER_SESSION (snd (execute_command w command st)) = BROWSER_SESSION st
  /\ clock (snd (execute_command w command st)) = clock st.
Proof.
  intros H. rewrite (execute_unrecognized w command st H).
  split; [reflexivity|]. split; reflexivity.
Qed.

Lemma unrecognized_command_is_inert_witness :
  recognized (lower (strip "  Dance now ")) = false
  /\ execute_command opens_then_exits "  Dance now " initial
     = (Next None,
        {| BROWSER_SESSION := None;
           clock := 0;
           trace := [Log "Processing command: dance now";
                     Log "Command not recognized."] |}).
Proof.
  split; [reflexivity|].
  exact (proj1 (unrecognized_command_is_inert opens_then_exits "  Dance now "
                  initial eq_refl)).
Defined.

(** ** Lower case *)


(** ** [fill_form_field] without a session *)

(** C10, as amended.  Without a live session handle [fill_form_field]
    returns normally and makes no external call; it logs the hint to run
    [open browser] first when Selenium is installed, and that Selenium is
    not available when it is not.  The dispatcher does not check for a
    session: a well-formed [fill form] line enters the handler all the
    same. *)
Theorem fill_form_field_without_session
    (w : World) (selector value : string) (st : State) :
  BROWSER_SESSION st = None ->
  fill_form_field w selector value st
  = (Next None,
     after st 0
       [Enter (fill_form_field_call selector value);
        Log ("Attempting to fill form field '" ++ selector ++ "' with value '"
             ++ value ++ "'");
        Log (if selenium_available w
             then "No active browser session. Run 'open browser <url>' first."
             else "Selenium WebDriver is not available.")])
  /\ (forall command verb sel val,
        startswith "fill form" (lower (strip command)) = true ->
        split "::" (lower (strip command)) = [verb; sel; val] ->
        execute_command w command st
        = (Next None,
           snd (fill_form_field w (strip sel) (strip val)
                  (after st 0 [processing (lower (strip command))])))).
Proof.
  intros Hs. split; [exact (fill_form_field_no_session w selector value st Hs)|].
  intros command verb sel val Hp Hf.
  pose proof (execute_fill_form w command st Hp) as H. cbv zeta in H.
  rewrite Hf in H. exact H.
Qed.

Lemma fill_form_field_without_session_witness :
  BROWSER_SESSION initial = None
  /\ fill_form_field opens_then_exits "#q" "hello" initial
     = (Next None,
        {| BROWSER_SESSION := None;
           clock := 0;
           trace :=
             [Enter (fill_form_field_call "#q" "hello");
              Log "Attempting to fill form field '#q' with value 'hello'";
              Log "No active browser session. Run 'open browser <url>' first."] |}).
Proof.
  split; [reflexivity|].
  exact (proj1 (fill_form_field_without_session opens_then_exits "#q" "hello"
                  initial eq_refl)).
Defined.

(** C10, as stated, fails: without Selenium no session can be live, and the
    handler logs that Selenium is missing, not the hint. *)
Lemma fill_form_field_without_selenium :
  BROWSER_SESSION initial = None
  /\ fill_form_field no_selenium "#q" "hello" initial
     = (Next None,
        {| BROWSER_SESSION := None;
           clock := 0;
           trace :=
             [Enter (fill_form_field_call "#q" "hello");
              Log "Attempting to fill form field '#q' with value 'hello'";
              Log "Selenium WebDriver is not available."] |}).
Proof. split; vm_compute; reflexivity. Qed.

End Spec.

(* ===================================================================== *)
(** * More about the string methods *)
(* ===================================================================== *)

Module PyStrMore.
Import PyStr PyStrFacts.

(** [sep.join(parts)] *)
Fixpoint join (sep : string) (parts : list string) : string :=
  match parts with
  | [] => EmptyString
  | [x] => x
  | x :: rest => x ++ sep ++ join sep rest
  end.

Lemma isspace_lower_char c : isspace (lower_char c) = isspace c.
Proof. destruct c as [[] [] [] [] [] [] [] []]; vm_compute; reflexivity. Qed.

Lemma lower_lower s : lower (lower s) = lower s.
Proof.
  induction s as [|c r IH]; cbn [lower]; [reflexivity|].
  rewrite IH, (lower_char_fixed _ (isupper_lower_char c)). reflexivity.
Qed.

Lemma lstrip_lower s : lstrip (lower s) = lower (lstrip s).
Proof.
  induction s as [|c r IH]; cbn [lower lstrip]; [reflexivity|].
  rewrite isspace_lower_char. destruct (isspace c); [exact IH|reflexivity].
Qed.

Lemma rstrip_lower s : rstrip (lower s) = lower (rstrip s).
Proof.
  induction s as [|c r IH]; cbn [lower rstrip]; [reflexivity|].
  rewrite IH, isspace_lower_char.
  destruct (rstrip r) as [|d r']; cbn [lower].
  - destruct (isspace c); reflexivity.
  - reflexivity.
Qed.

Lemma strip_lower s : strip (lower s) = lower (strip s).
Proof. unfold strip. rewrite lstrip_lower, rstrip_lower. reflexivity. Qed.

(** White space is only dropped at the ends. *)
Definition no_leading_space (s : string) : Prop :=
  match s with EmptyString => True | String c _ => isspace c = false end.

Lemma lstrip_no_leading_space s : no_leading_space (lstrip s).
Proof.
  induction s as [|c r IH]; cbn [lstrip]; [exact I|].
  destruct (isspace c) eqn:E; [exact IH|exact E].
Qed.

Lemma lstrip_fixed s : no_leading_space s -> lstrip s = s.
Proof. destruct s as [|c r]; cbn; [reflexivity|]. intros ->. reflexivity. Qed.

Lemma rstrip_no_leading_space s : no_leading_space s -> no_leading_space (rstrip s).
Proof.
  destruct s as [|c r]; cbn [rstrip no_leading_space]; [auto|].
  intros H. destruct (rstrip r); [rewrite H|]; exact H.
Qed.

Lemma rstrip_rstrip s : rstrip (rstrip s) = rstrip s.
Proof.
  induction s as [|c r IH]; cbn [rstrip]; [reflexivity|].
  destruct (rstrip r) as [|d r'] eqn:E.
  - destruct (isspace c) eqn:Ec; cbn [rstrip]; [reflexivity|].
    rewrite Ec. reflexivity.
  - change (rstrip (String c (String d r')))
      with (match rstrip (String d r') with
            | EmptyString => if isspace c then EmptyString else String c EmptyString
            | r0 => String c r0
            end).
    rewrite IH. reflexivity.
Qed.

Lemma strip_no_leading_space s : no_leading_space (strip s).
Proof. apply rstrip_no_leading_space, lstrip_no_leading_space. Qed.

Lemma strip_strip s : strip (strip s) = strip s.
Proof.
  unfold strip at 1. rewrite (lstrip_fixed _ (strip_no_leading_space s)).
  unfold strip. apply rstrip_rstrip.
Qed.

(** Normalising a normalised command changes nothing. *)
Lemma normalise_idempotent s : lower (strip (lower (strip s))) = lower (strip s).
Proof. rewrite strip_lower, strip_strip, lower_lower. reflexivity. Qed.

Lemma startswith_split p s :
  startswith p s = true -> s = p ++ drop (String.length p) s.
Proof.
  revert s; induction p as [|a p IH]; intros [|b s]; cbn; try discriminate; auto.
  intros H. apply andb_true_iff in H as [Hab Hp].
  apply Ascii.eqb_eq in Hab as ->. f_equal. exact (IH _ Hp).
Qed.

Lemma startswith_app p s t : startswith p s = true -> startswith p (s ++ t) = true.
Proof.
  revert s; induction p as [|a p IH]; intros [|b s]; cbn; try discriminate; auto.
  intros H. apply andb_true_iff in H as [Hab Hp].
  rewrite Hab, (IH _ Hp). reflexivity.
Qed.

Lemma split_first_cons sep c r :
  split_first sep (String c r)
  = if startswith sep (String c r)
    then Some (EmptyString, drop (String.length sep) (String c r))
    else match split_first sep r with
         | Some (b, a) => Some (String c b, a)
         | None => None
         end.
Proof. reflexivity. Qed.

Lemma split_first_nil sep :
  split_first sep EmptyString
  = if startswith sep EmptyString
    then Some (EmptyString, drop (String.length sep) EmptyString)
    else None.
Proof. reflexivity. Qed.

(** The line is the text before the separator, the separator, and the text
    after it. *)
Lemma split_first_join sep s b a :
  split_first sep s = Some (b, a) -> s = b ++ sep ++ a.
Proof.
  revert b a; induction s as [|c r IH]; intros b a.
  - rewrite split_first_nil. destruct (startswith sep "") eqn:E; [|discriminate].
    intros [= <- <-]. exact (startswith_split _ _ E).
  - rewrite split_first_cons. destruct (startswith sep (String c r)) eqn:E.
    + intros [= <- <-]. exact (startswith_split _ _ E).
    + destruct (split_first sep r) as [[b' a']|]; [|discriminate].
      intros [= <- <-]. cbn. f_equal. apply IH. reflexivity.
Qed.

(** Where [sep] first occurs, it does not occur before. *)
Lemma split_first_before sep s b a :
  sep <> EmptyString ->
  split_first sep s = Some (b, a) -> split_first sep b = None.
Proof.
  intros Hsep. assert (Hnil : startswith sep "" = false)
    by (destruct sep; [contradiction|reflexivity]).
  revert b a; induction s as [|c r IH]; intros b a.
  - rewrite split_first_nil, Hnil. discriminate.
  - rewrite split_first_cons. destruct (startswith sep (String c r)) eqn:E.
    + intros [= <- <-]. rewrite split_first_nil, Hnil. reflexivity.
    + destruct (split_first sep r) as [[b' a']|] eqn:F; [|discriminate].
      intros [= <- <-]. rewrite split_first_cons, (IH _ _ eq_refl).
      destruct (startswith sep (String c b')) eqn:G; [|reflexivity].
      rewrite (split_first_join _ _ _ _ F) in E.
      change (String c (b' ++ sep ++ a')) with (String c b' ++ sep ++ a') in E.
      rewrite (startswith_app _ _ _ G) in E. discriminate.
Qed.

Lemma length_app a b : String.length (a ++ b) = String.length a + String.length b.
Proof. induction a as [|c r IH]; cbn; [reflexivity|]. rewrite IH. reflexivity. Qed.

Lemma split_first_shorter sep s b a :
  sep <> EmptyString ->
  split_first sep s = Some (b, a) -> String.length a < String.length s.
Proof.
  intros Hsep H. rewrite (split_first_join _ _ _ _ H).
  rewrite !length_app. destruct sep; [contradiction|]. cbn. lia.
Qed.

(** Joining what [split] gives, with at most [m] cuts or with all of them,
    gives the line back. *)
Lemma join_split_max sep m s : join sep (split_max sep m s) = s.
Proof.
  revert s; induction m as [|m IH]; intros s; cbn [split_max]; [reflexivity|].
  destruct (split_first sep s) as [[b a]|] eqn:E; [|reflexivity].
  specialize (IH a). cbn [join].
  destruct (split_max sep m a) as [|x l] eqn:F.
  - destruct m; cbn in F; [discriminate|].
    destruct (split_first sep a) as [[? ?]|]; discriminate.
  - rewrite IH. symmetry. exact (split_first_join _ _ _ _ E).
Qed.

Lemma split_max_complete sep m s :
  sep <> EmptyString -> String.length s <= m ->
  Forall (fun piece => split_first sep piece = None) (split_max sep m s).
Proof.
  intros Hsep. revert s; induction m as [|m IH]; intros s Hm; cbn [split_max].
  - constructor; [|constructor]. destruct s; [|cbn in Hm; lia].
    rewrite split_first_nil. destruct sep; [contradiction|reflexivity].
  - destruct (split_first sep s) as [[b a]|] eqn:E.
    + constructor; [exact (split_first_before _ _ _ _ Hsep E)|].
      apply IH. pose proof (split_first_shorter _ _ _ _ Hsep E). lia.
    + constructor; [exact E|constructor].
Qed.

(** The words of [s.split()] are not empty and hold no white space. *)
Definition is_word (x : string) : Prop :=
  x <> EmptyString /\ all_chars (fun c => negb (isspace c)) x = true.

Lemma words_from_words cur s :
  match cur with Some x => is_word x | None => True end ->
  Forall is_word (words_from cur s).
Proof.
  revert cur; induction s as [|c r IH]; intros cur Hcur; cbn [words_from].
  - destruct cur; [constructor; [exact Hcur|constructor]|constructor].
  - destruct (isspace c) eqn:E.
    + destruct cur; [constructor; [exact Hcur|]|]; apply IH; exact I.
    + apply IH. destruct cur as [x|].
      * destruct Hcur as [Hx Ha]. split.
        -- destruct x; [contradiction|discriminate].
        -- rewrite all_chars_app, Ha. cbn. rewrite E. reflexivity.
      * split; [discriminate|]. cbn. rewrite E. reflexivity.
Qed.

Lemma split_ws_words s : Forall is_word (split_ws s).
Proof. apply words_from_words. exact I. Qed.

Lemma partition_prefix p s :
  startswith p s = true -> partition p s = (EmptyString, p, drop (String.length p) s).
Proof.
  intros H. unfold partition.
  destruct s; [rewrite split_first_nil|rewrite split_first_cons]; rewrite H; reflexivity.
Qed.

End PyStrMore.

(* ===================================================================== *)
(** * Further properties of the handlers, the dispatcher and the loop *)
(* ===================================================================== *)

Module Extra.
Import PyStr Py Assistant Run Dispatch Scenario PyStrMore.

(** ** The handlers the dispatcher calls *)

(** X1.  [read_folder] asks whether the folder exists.  If not, it logs
    that and lists nothing.  If it does, it logs one line per child, in the
    order the directory listing gives them.  A failure of either call is
    logged.  In every case it returns normally. *)
Theorem read_folder_lists_in_order (w : World) (path : string) (st : State) :
  let entry := [Enter (read_folder_call path);
                Log ("Reading contents of folder: " ++ path);
                Ext (Path_exists path)] in
  read_folder w path st
  = (Next None,
     match exists_ w (clock st) path with
     | Ok true =>
         match iterdir w (S (clock st)) path with
         | Ok names =>
             after st 2
               (entry ++ Ext (Path_iterdir path)
                  :: map (fun name => Log (" - " ++ name)) names)
         | Fails exc =>
             after st 2
               (entry ++ [Ext (Path_iterdir path);
                          Log ("Failed to read folder: " ++ str_exc exc)])
         end
     | Ok false => after st 1 (entry ++ [Log "Folder does not exist."])
     | Fails exc =>
         after st 1 (entry ++ [Log ("Failed to read folder: " ++ str_exc exc)])
     end).
Proof.
  intros entry. unfold read_folder.
  run; try rewrite for_in_logs; py_unfold; subst entry; unfold after; tidy;
    reflexivity.
Qed.


(** X3.  [click_button] without pyautogui makes no external call.  With
    it, the image is searched once; when it is found the mouse is clicked
    once, at the point the search returned; when it is not found, or the
    search fails, nothing is clicked.  It always returns normally. *)
Theorem click_button_clicks_where_found
    (w : World) (image_path : string) (confidence : Q) (st : State) :
  let entry := [Enter (click_button_call image_path confidence);
                Log ("Attempting to click button using image: " ++ image_path)] in
  let search := Ext (locateCenterOnScreen image_path confidence) in
  click_button w image_path confidence st
  = (Next None,
     if pyautogui_available w then
       match locate w (clock st) image_path with
       | Ok (Some p) =>
           after st 2
             (entry ++
              [search; Ext (pyautogui_click p);
               match perform w (S (clock st)) (pyautogui_click p) with
               | Ok _ => Log ("Clicked button at position: " ++ str_point p)
               | Fails exc => Log ("Failed to click button: " ++ str_exc exc)
               end])
       | Ok None => after st 1 (entry ++ [search; Log "Button image not found on screen."])
       | Fails exc =>
           after st 1 (entry ++ [search; Log ("Failed to click button: " ++ str_exc exc)])
       end
     else
       after st 0
         (entry ++ [Log "pyautogui is not available. Install it to enable GUI automation."])).
Proof.
  intros entry search. subst entry search. unfold click_button.
  run; unfold after; tidy; reflexivity.
Qed.


(** X5.  [open_browser] without Selenium logs that and does nothing else:
    no external call is made and the session handle is left as it is. *)
Theorem open_browser_without_selenium (w : World) (url : string) (st : State) :
  selenium_available w = false ->
  open_browser w url st
  = (Next None,
     after st 0
       [Enter (open_browser_call url);
        Log ("Attempting to open browser at URL: " ++ url);
        Log "Selenium is not available. Ensure selenium and a driver are installed."]).
Proof.
  intros H. unfold open_browser. py_unfold. rewrite H. py_unfold.
  unfold after. tidy. reflexivity.
Qed.

Lemma open_browser_without_selenium_witness :
  selenium_available no_selenium = false
  /\ open_browser no_selenium "http://a.example" initial
     = (Next None,
        {| BROWSER_SESSION := None;
           clock := 0;
           trace :=
             [Enter (open_browser_call "http://a.example");
              Log "Attempting to open browser at URL: http://a.example";
              Log "Selenium is not available. Ensure selenium and a driver are installed."] |}).
Proof.
  split; [reflexivity|].
  exact (open_browser_without_selenium no_selenium "http://a.example" initial eq_refl).
Defined.

(** X6.  [open_browser] with Selenium and no session creates the options,
    asks for a maximised window, starts the browser and navigates, in that
    order, stopping at the first call that fails.  The handle is set as soon
    as the browser has started: it stays set when the navigation that
    follows fails, and it stays unset when the browser did not start. *)
Theorem open_browser_first_session (w : World) (url : string) (st : State) :
  selenium_available w = true ->
  BROWSER_SESSION st = None ->
  let n := clock st in
  let entry := [Enter (open_browser_call url);
                Log ("Attempting to open browser at URL: " ++ url)] in
  let failed exc := Log ("Failed to open browser: " ++ str_exc exc) in
  let fresh (ticks : nat) (session : option Session) (new : list Event) : State :=
    {| BROWSER_SESSION := session; clock := ticks + n; trace := trace st ++ entry ++ new |} in
  open_browser w url st
  = (Next None,
     match perform w n ChromeOptions with
     | Fails exc => fresh 1 None [Ext ChromeOptions; failed exc]
     | Ok _ =>
         match perform w (S n) (add_argument "--start-maximized") with
         | Fails exc =>
             fresh 2 None
               [Ext ChromeOptions; Ext (add_argument "--start-maximized"); failed exc]
         | Ok _ =>
             match perform w (S (S n)) webdriver_Chrome with
             | Fails exc =>
                 fresh 3 None
                   [Ext ChromeOptions; Ext (add_argument "--start-maximized");
                    Ext webdriver_Chrome; failed exc]
             | Ok _ =>
                 fresh 4 (Some (S (S n)))
                   [Ext ChromeOptions; Ext (add_argument "--start-maximized");
                    Ext webdriver_Chrome; Ext (session_get (S (S n)) url);
                    match perform w (S (S (S n))) (session_get (S (S n)) url) with
                    | Ok _ => Log "Browser opened successfully."
                    | Fails exc => failed exc
                    end]
             end
         end
     end).
Proof.
  intros Hsel Hs n entry failed fresh. subst n entry failed fresh. unfold open_browser.
  py_unfold. rewrite Hsel, Hs.
  run; tidy; rewrite ?Hs; reflexivity.
Qed.

Lemma open_browser_first_session_witness :
  selenium_available opens_then_exits = true
  /\ BROWSER_SESSION initial = None
  /\ open_browser opens_then_exits "http://a.example" initial
     = (Next None,
        {| BROWSER_SESSION := Some 2;
           clock := 4;
           trace :=
             [Enter (open_browser_call "http://a.example");
              Log "Attempting to open browser at URL: http://a.example";
              Ext ChromeOptions; Ext (add_argument "--start-maximized");
              Ext webdriver_Chrome; Ext (session_get 2 "http://a.example");
              Log "Browser opened successfully."] |}).
Proof.
  split; [reflexivity|]. split; [reflexivity|].
  exact (open_browser_first_session opens_then_exits "http://a.example" initial
           eq_refl eq_refl).
Defined.

(** X7.  [fill_form_field] with Selenium and a live session finds the
    element by the selector in that session, clears it and sends the value,
    in that order, stopping at the first call that fails; the failure is
    logged, the handler returns normally, and the session handle is kept. *)
Theorem fill_form_field_live_session
    (w : World) (selector value : string) (st : State) (s : Session) :
  selenium_available w = true ->
  BROWSER_SESSION st = Some s ->
  let n := clock st in
  let entry := [Enter (fill_form_field_call selector value);
                Log ("Attempting to fill form field '" ++ selector
                     ++ "' with value '" ++ value ++ "'");
                Ext (find_element s selector)] in
  let failed exc := Log ("Failed to fill form field: " ++ str_exc exc) in
  fill_form_field w selector value st
  = (Next None,
     match element w n s selector with
     | Fails exc => after st 1 (entry ++ [failed exc])
     | Ok el =>
         match perform w (S n) (element_clear el) with
         | Fails exc => after st 2 (entry ++ [Ext (element_clear el); failed exc])
         | Ok _ =>
             after st 3
               (entry ++
                [Ext (element_clear el); Ext (element_send_keys el value);
                 match perform w (S (S n)) (element_send_keys el value) with
                 | Ok _ => Log "Form field filled successfully."
                 | Fails exc => failed exc
                 end])
         end
     end).
Proof.
  intros Hsel Hs n entry failed. subst n entry failed. unfold fill_form_field.
  py_unfold. rewrite Hsel, Hs.
  run; unfold after; tidy; rewrite ?Hs; reflexivity.
Qed.

Lemma fill_form_field_live_session_witness :
  selenium_available stale_driver = true
  /\ BROWSER_SESSION browsing = Some 2
  /\ fill_form_field stale_driver "#q" "hello" browsing
     = (Next None,
        after browsing 3
          [Enter (fill_form_field_call "#q" "hello");
           Log "Attempting to fill form field '#q' with value 'hello'";
           Ext (find_element 2 "#q");
           Ext (element_clear 4); Ext (element_send_keys 4 "hello");
           Log "Form field filled successfully."]).
Proof.
  split; [reflexivity|]. split; [reflexivity|].
  exact (fill_form_field_live_session stale_driver "#q" "hello" browsing 2
           eq_refl eq_refl).
Defined.

(** ** The dispatcher *)

(** X8.  The dispatcher sees a command only through its trimmed, lowered
    form: a command and that form of it are handled in exactly the same
    way. *)
Theorem execute_command_normalised (w : World) (command : string) (st : State) :
  execute_command w (lower (strip command)) st = execute_command w command st.
Proof.
  unfold execute_command. cbv zeta. rewrite normalise_idempotent. reflexivity.
Qed.

Ltac handler_result lemma :=
  let v := fresh "v" in
  let st' := fresh "st'" in
  let rest := fresh "rest" in
  let E := fresh "E" in
  destruct lemma as (v & st' & rest & E & _); rewrite E; py_unfold; reflexivity.

(** X9.  After the verb [open browser] the rest of the line, trimmed, is
    the URL; when nothing is left the URL is [https://www.google.com].
    [open_browser] is called with it and the dispatcher returns normally. *)
Theorem open_browser_url_or_default (w : World) (command : string) (st : State) :
  let c := lower (strip command) in
  let rest := strip (drop 12 c) in
  startswith "open browser" c = true ->
  execute_command w command st
  = (Next None,
     snd (open_browser w (if nonempty rest then rest else "https://www.google.com")
            (after st 0 [processing c]))).
Proof.
  intros c rest H. unfold execute_command. cbv zeta. fold c.
  rewrite H, (partition_prefix _ _ H). py_unfold.
  unfold after, processing, or_else. cbn [String.length Nat.add]. fold rest.
  match goal with
  | |- context [open_browser w ?u ?s] =>
      destruct (open_browser_returns w u s) as (st' & r & E & _); rewrite E
  end.
  reflexivity.
Qed.

Lemma open_browser_url_or_default_witness :
  startswith "open browser" (lower (strip " Open Browser   ")) = true
  /\ execute_command opens_then_exits " Open Browser   " initial
     = (Next None,
        snd (open_browser opens_then_exits "https://www.google.com"
               (after initial 0 [processing "open browser"]))).
Proof.
  split; [reflexivity|].
  exact (open_browser_url_or_default opens_then_exits " Open Browser   " initial eq_refl).
Defined.

(** X10.  After the verb [read folder] the rest of the line, trimmed, is
    the folder.  When nothing is left the home directory is looked up, in
    the dispatcher: if the lookup succeeds [read_folder] is called with it,
    and if it fails the exception leaves the dispatcher before
    [read_folder] is entered. *)
Theorem read_folder_path_or_home (w : World) (command : string) (st : State) :
  let c := lower (strip command) in
  let rest := strip (drop 11 c) in
  startswith "read folder" c = true ->
  execute_command w command st
  = if nonempty rest then
      (Next None, snd (read_folder w rest (after st 0 [processing c])))
    else
      match home w (clock st) with
      | Ok directory =>
          (Next None,
           snd (read_folder w directory (after st 1 [processing c; Ext Path_home])))
      | Fails exc =>
          (Raise (Exception exc), after st 1 [processing c; Ext Path_home])
      end.
Proof.
  intros c rest H.
  assert (H1 : startswith "open browser" c = false) by clash H.
  assert (H2 : startswith "launch telegram" c = false) by clash H.
  unfold execute_command. cbv zeta. fold c.
  rewrite H1, H2, H, (partition_prefix _ _ H). py_unfold.
  unfold after, processing. cbn [String.length Nat.add]. fold rest.
  destruct (nonempty rest); py_unfold.
  - handler_result (read_folder_plain w rest
      {| BROWSER_SESSION := BROWSER_SESSION st; clock := clock st;
         trace := trace st ++ [Log ("Processing command: " ++ c)] |}).
  - destruct (home w (clock st)) as [directory|exc]; py_unfold; tidy; [|reflexivity].
    handler_result (read_folder_plain w directory
      {| BROWSER_SESSION := BROWSER_SESSION st; clock := S (clock st);
         trace := trace st ++ [Log ("Processing command: " ++ c); Ext Path_home] |}).
Qed.

Lemma read_folder_path_or_home_witness :
  startswith "read folder" (lower (strip "read folder")) = true
  /\ execute_command homeless "read folder" initial
     = (Raise (Exception (Error "Could not determine home directory.")),
        {| BROWSER_SESSION := None;
           clock := 1;
           trace := [Log "Processing command: read folder"; Ext Path_home] |}).
Proof.
  split; [reflexivity|].
  exact (read_folder_path_or_home homeless "read folder" initial eq_refl).
Defined.

(** X11.  After the verb [click button] the rest of the line, trimmed, is
    the image path, passed with confidence 0.9; there is no default, so a
    bare [click button] calls the handler with the empty path. *)
Theorem click_button_image_path (w : World) (command : string) (st : State) :
  let c := lower (strip command) in
  startswith "click button" c = true ->
  execute_command w command st
  = (Next None,
     snd (click_button w (strip (drop 12 c)) (9 # 10) (after st 0 [processing c]))).
Proof.
  intros c H.
  assert (H1 : startswith "open browser" c = false) by clash H.
  assert (H2 : startswith "launch telegram" c = false) by clash H.
  assert (H3 : startswith "read folder" c = false) by clash H.
  assert (H4 : startswith "take screenshot" c = false) by clash H.
  unfold execute_command. cbv zeta. fold c.
  rewrite H1, H2, H3, H4, H, (partition_prefix _ _ H). py_unfold.
  unfold after, processing. cbn [String.length Nat.add].
  handler_result (click_button_plain w (strip (drop 12 c)) (9 # 10)
    {| BROWSER_SESSION := BROWSER_SESSION st; clock := clock st;
       trace := trace st ++ [Log ("Processing command: " ++ c)] |}).
Qed.

Lemma click_button_image_path_witness :
  startswith "click button" (lower (strip "Click Button")) = true
  /\ execute_command opens_then_exits "Click Button" initial
     = (Next None,
        snd (click_button opens_then_exits "" (9 # 10)
               (after initial 0 [processing "click button"]))).
Proof.
  split; [reflexivity|].
  exact (click_button_image_path opens_then_exits "Click Button" initial eq_refl).
Defined.

(** X12.  Whatever follows the verbs [launch telegram] and
    [take screenshot] on the line is ignored: the first calls
    [launch_telegram], the second calls [take_screenshot] for the folder
    [screenshots], and the path it returns is dropped. *)
Theorem verbs_without_arguments (w : World) (command : string) (st : State) :
  let c := lower (strip command) in
  (startswith "launch telegram" c = true ->
   execute_command w command st
   = (Next None, snd (launch_telegram w (after st 0 [processing c]))))
  /\ (startswith "take screenshot" c = true ->
      execute_command w command st
      = (Next None, snd (take_screenshot w "screenshots" (after st 0 [processing c])))).
Proof.
  intros c. split; intros H.
  - assert (H1 : startswith "open browser" c = false) by clash H.
    unfold execute_command. cbv zeta. fold c. rewrite H1, H. py_unfold.
    unfold after, processing. cbn [Nat.add].
    handler_result (launch_telegram_plain w
      {| BROWSER_SESSION := BROWSER_SESSION st; clock := clock st;
         trace := trace st ++ [Log ("Processing command: " ++ c)] |}).
  - assert (H1 : startswith "open browser" c = false) by clash H.
    assert (H2 : startswith "launch telegram" c = false) by clash H.
    assert (H3 : startswith "read folder" c = false) by clash H.
    unfold execute_command. cbv zeta. fold c. rewrite H1, H2, H3, H. py_unfold.
    unfold after, processing. cbn [Nat.add].
    handler_result (take_screenshot_plain w "screenshots"
      {| BROWSER_SESSION := BROWSER_SESSION st; clock := clock st;
         trace := trace st ++ [Log ("Processing command: " ++ c)] |}).
Qed.

Lemma verbs_without_arguments_witness :
  startswith "take screenshot" (lower (strip "take screenshot to D:/Shots")) = true
  /\ execute_command opens_then_exits "take screenshot to D:/Shots" initial
     = (Next None,
        snd (take_screenshot opens_then_exits "screenshots"
               (after initial 0 [processing "take screenshot to d:/shots"]))).
Proof.
  split; [reflexivity|].
  exact (proj2 (verbs_without_arguments opens_then_exits "take screenshot to D:/Shots"
                  initial) eq_refl).
Defined.

(** The verbs [execute_command] tests for, in its order. *)
Definition verbs : list string :=
  ["open browser"; "launch telegram"; "read folder"; "take screenshot";
   "click button"; "fill form"; "open app"; "send http"].

(** X13.  A line starts with at most one of the eight verbs, and a line
    that starts with a verb is not an exit word: no two branches of
    [execute_command] compete for a line, so the order of its tests decides
    nothing. *)
Theorem verbs_exclude_each_other (c p q : string) :
  In p verbs -> startswith p c = true ->
  (In q verbs -> startswith q c = true -> p = q) /\ is_exit c = false.
Proof.
  intros Hp Hc. rewrite (startswith_split _ _ Hc).
  generalize (drop (String.length p) c) as r. intros r.
  cbn [verbs In] in Hp.
  split.
  - intros Hq. cbn [verbs In] in Hq.
    repeat (destruct Hp as [<-|Hp]; [|]); try contradiction;
      repeat (destruct Hq as [<-|Hq]; [|]); try contradiction;
      intros H; first [reflexivity | cbv in H; discriminate H].
  - repeat (destruct Hp as [<-|Hp]; [|]); try contradiction; reflexivity.
Qed.

Lemma verbs_exclude_each_other_witness :
  In "open app" verbs
  /\ startswith "open app" "open app::x.exe" = true
  /\ is_exit "open app::x.exe" = false.
Proof.
  assert (H : In "open app" verbs) by (cbn; tauto).
  split; [exact H|]. split; [reflexivity|].
  exact (proj2 (verbs_exclude_each_other "open app::x.exe" "open app" "open app"
                  H eq_refl)).
Defined.

(** X14.  Only [open browser] can change the session handle: after any
    command that does not start with that verb, the handle is what it
    was. *)
Theorem only_open_browser_changes_session (w : World) (command : string) (st : State) :
  startswith "open browser" (lower (strip command)) = false ->
  BROWSER_SESSION (snd (execute_command w command st)) = BROWSER_SESSION st.
Proof.
  intros H. unfold execute_command. cbv zeta.
  set (c := lower (strip command)) in *. rewrite H.
  destruct (partition "read folder" c) as [[? ?] folder].
  destruct (partition "click button" c) as [[? ?] image].
  destruct (split "::" c) as [|p0 [|p1 [|p2 [|p3 ps]]]];
    destruct (split_max "::" 2 c) as [|q0 [|q1 [|q2 [|q3 qs]]]];
    cbn [List.length Nat.leb Nat.eqb nth].
  all: run.
  all: try reflexivity.
  all: match goal with
       | |- context [launch_telegram ?w0 ?s] =>
           destruct (launch_telegram_plain w0 s) as (v & st' & r & E & _ & _ & _ & Hb & _)
       | |- context [read_folder ?w0 ?p ?s] =>
           destruct (read_folder_plain w0 p s) as (v & st' & r & E & _ & _ & _ & Hb & _)
       | |- context [take_screenshot ?w0 ?d ?s] =>
           destruct (take_screenshot_plain w0 d s) as (v & st' & r & E & _ & _ & _ & Hb & _)
       | |- context [click_button ?w0 ?i ?q ?s] =>
           destruct (click_button_plain w0 i q s) as (v & st' & r & E & _ & _ & _ & Hb & _)
       | |- context [fill_form_field ?w0 ?a ?b ?s] =>
           destruct (fill_form_field_plain w0 a b s) as (v & st' & r & E & _ & _ & _ & Hb & _)
       | |- context [open_application ?w0 ?a ?b ?s] =>
           destruct (open_application_plain w0 a b s) as (v & st' & r & E & _ & _ & _ & Hb & _)
       | |- context [send_http_message ?w0 ?a ?b ?s] =>
           destruct (send_http_message_plain w0 a b s) as (v & st' & r & E & _ & _ & _ & Hb & _)
       end; rewrite E; py_unfold; exact Hb.
Qed.

Lemma only_open_browser_changes_session_witness :
  startswith "open browser" (lower (strip "fill form::#q::x")) = false
  /\ BROWSER_SESSION (snd (execute_command stale_driver "fill form::#q::x" browsing))
     = Some 2.
Proof.
  split; [reflexivity|].
  exact (only_open_browser_changes_session stale_driver "fill form::#q::x" browsing
           eq_refl).
Defined.


(** X16.  An exit word makes the dispatcher log two lines and raise
    [SystemExit(0)]; it calls nothing and leaves the session handle, live or
    not, as it is. *)
Theorem exit_word_raises_system_exit (w : World) (command : string) (st : State) :
  is_exit (lower (strip command)) = true ->
  execute_command w command st
  = (Raise (SystemExit 0),
     after st 0 [processing (lower (strip command)); Log "Exiting assistant loop."]).
Proof.
  intros H. unfold execute_command. cbv zeta.
  destruct (is_exit_inv _ H) as [-> | ->];
    py_unfold; cbn; py_unfold; unfold after, processing; tidy; reflexivity.
Qed.

Lemma exit_word_raises_system_exit_witness :
  is_exit (lower (strip " QUIT ")) = true
  /\ execute_command stale_driver " QUIT " browsing
     = (Raise (SystemExit 0),
        after browsing 0 [processing "quit"; Log "Exiting assistant loop."]).
Proof.
  split; [reflexivity|].
  exact (exit_word_raises_system_exit stale_driver " QUIT " browsing eq_refl).
Defined.

(** ** The loop of [main] *)

Definition typed_prompt : Call := input_call "Enter command (or 'exit' to quit): ".

(** What [main] does after its loop, from the state [st] in which the loop
    was left: a live session is closed, whatever the close answers, and the
    last line is logged. *)
Definition stopped (st : State) : State :=
  match BROWSER_SESSION st with
  | Some s => after st 1 [Ext (session_quit s); Log "Assistant stopped."]
  | None => after st 0 [Log "Assistant stopped."]
  end.

(** X17.  Without speech recognition, an interruption at the first prompt
    makes [main] log it, leave the loop, close the live session if there is
    one (a failure of the close is swallowed), log the last line and return
    normally. *)
Theorem interruption_closes_session (w : World) (fuel : nat) (st : State) :
  sr_available w = false ->
  input w (clock st) = Interrupted ->
  main w (S fuel) st
  = (Next None,
     stopped
       (after st 1
          [Log "Starting Windows Automation Assistant.";
           Log "Voice recognition not available; defaulting to text commands.";
           Ext typed_prompt;
           Log "Assistant interrupted by user."])).
Proof.
  intros Hsr Hin. unfold main, stopped, typed_prompt. py_unfold. rewrite Hsr. py_unfold.
  cbn [while_True]. unfold main_loop_body. py_unfold. rewrite Hsr. py_unfold.
  rewrite Hin. py_unfold. unfold after. cbn [BROWSER_SESSION clock trace].
  destruct (BROWSER_SESSION st) as [s|] eqn:Hs; run; tidy; reflexivity.
Qed.

(** The user interrupts at once; and the input has ended, so every read
    fails. *)
Definition interrupts_at_once : World :=
  scripted true false true always_ok silence (fun _ => Interrupted) users_home.

Definition end_of_input : World :=
  scripted true false true always_ok silence
    (fun _ => Failed (Error "EOF when reading a line")) users_home.

Lemma interruption_closes_session_witness :
  sr_available interrupts_at_once = false
  /\ input interrupts_at_once (clock browsing) = Interrupted
  /\ main interrupts_at_once 1 browsing
     = (Next None,
        {| BROWSER_SESSION := Some 2;
           clock := 6;
           trace :=
             trace browsing ++
             [Log "Starting Windows Automation Assistant.";
              Log "Voice recognition not available; defaulting to text commands.";
              Ext typed_prompt;
              Log "Assistant interrupted by user.";
              Ext (session_quit 2);
              Log "Assistant stopped."] |}).
Proof.
  split; [reflexivity|]. split; [reflexivity|].
  exact (interruption_closes_session interrupts_at_once 0 browsing eq_refl eq_refl).
Defined.



Lemma failing_prompt_round (w : World) (st : State) (exc : Exc) :
  sr_available w = false ->
  input w (clock st) = Failed exc ->
  main_loop_body w st
  = (Next tt, after st 1 [Ext typed_prompt; Log ("Unexpected error: " ++ str_exc exc)]).
Proof.
  intros Hsr Hin. unfold main_loop_body, typed_prompt. py_unfold. rewrite Hsr. py_unfold.
  rewrite Hin. py_unfold. unfold after. tidy. reflexivity.
Qed.

Lemma failing_prompt_loop (w : World) (fuel : nat) (st : State) :
  sr_available w = false ->
  (forall n, exists exc, input w n = Failed exc) ->
  fst (while_True fuel (main_loop_body w) st) = Running.
Proof.
  intros Hsr Hin. revert st; induction fuel as [|fuel IH]; intros st; [reflexivity|].
  cbn [while_True]. destruct (Hin (clock st)) as [exc He].
  rewrite (failing_prompt_round w st exc Hsr He). apply IH.
Qed.

(** X19.  Without speech recognition, when every read at the prompt fails
    with an exception (as at the end of a redirected input), the loop logs
    the error and asks again, for ever: however many rounds [main] is
    given, it is still running. *)
Theorem failing_prompt_never_ends (w : World) (fuel : nat) (st : State) :
  sr_available w = false ->
  (forall n, exists exc, input w n = Failed exc) ->
  fst (main w fuel st) = Running.
Proof.
  intros Hsr Hin. unfold main. py_unfold. rewrite Hsr. py_unfold.
  match goal with
  | |- context [while_True fuel (main_loop_body w) ?s] =>
      pose proof (failing_prompt_loop w fuel s Hsr Hin) as L;
      destruct (while_True fuel (main_loop_body w) s) as [f s']
  end.
  cbn [fst] in L. rewrite L. reflexivity.
Qed.

Lemma failing_prompt_never_ends_witness :
  sr_available end_of_input = false
  /\ (forall n, exists exc, input end_of_input n = Failed exc)
  /\ fst (main end_of_input 7 initial) = Running.
Proof.
  assert (H : forall n, exists exc, input end_of_input n = Failed exc)
    by (intros n; eexists; reflexivity).
  split; [reflexivity|]. split; [exact H|].
  exact (failing_prompt_never_ends end_of_input 7 initial eq_refl H).
Defined.

(** ** Fields and words *)

(** X20.  The fields that [fill form] and [open app] get from splitting the
    line on [::] are exactly the text between the separators: joined with
    [::] they give the line back, and no field holds a [::]. *)
Theorem fields_between_separators (line : string) :
  join "::" (split "::" line) = line
  /\ Forall (fun field => split_first "::" field = None) (split "::" line).
Proof.
  split.
  - apply join_split_max.
  - apply split_max_complete; [discriminate|apply Nat.le_refl].
Qed.

Lemma split_max_length sep m s : List.length (split_max sep m s) <= S m.
Proof.
  revert s; induction m as [|m IH]; intros s; cbn [split_max]; [cbn; lia|].
  destruct (split_first sep s) as [[b a]|]; cbn [List.length]; [|lia].
  specialize (IH a). lia.
Qed.

(** X21.  [send http] cuts the line at its first two [::] only: there are
    at most three fields, they join back to the line, and when there are
    three the verb and the endpoint hold no [::], so every further [::]
    stays in the body. *)
Theorem send_http_fields (line : string) :
  List.length (split_max "::" 2 line) <= 3
  /\ join "::" (split_max "::" 2 line) = line
  /\ match split_max "::" 2 line with
     | [verb; endpoint; body] =>
         split_first "::" verb = None /\ split_first "::" endpoint = None
     | _ => True
     end.
Proof.
  split; [apply split_max_length|]. split; [apply join_split_max|].
  cbn [split_max].
  destruct (split_first "::" line) as [[b a]|] eqn:E; [|exact I].
  destruct (split_first "::" a) as [[b' a']|] eqn:F; [|exact I].
  split; eapply split_first_before; try eassumption; discriminate.
Qed.

(** X22.  The arguments that [open_application] puts after the executable
    are the words of the argument string: none is empty and none holds
    white space, so an argument with a blank in it cannot be passed. *)
Theorem popen_arguments_are_words (arguments : option string) :
  Forall is_word (words arguments).
Proof.
  destruct arguments as [a|]; [apply split_ws_words|constructor].
Qed.

End Extra.
